(** * Code examples of the Sass site: blocks, sections, paddings and the split

    A shallow embedding of [source/helpers/components/codeExample.ts]:
    [generateCodeExample] with its helpers [getPaddings], [getPadding],
    [getTotalPadding] and [getCanSplit], together with the three methods of
    JavaScript strings they rely on ([split] with a string separator, [trim]
    and [length]).

    Modelling conventions.
    - A JavaScript string is a [string]; one [ascii] stands for one UTF-16
      code unit in the range 0..255, so that [String.length] is the
      [.length] of the source.
    - An array is a [list]; [a[i]] is [nth_error a i] ([None] is
      [undefined]) and [a.slice(i)] is [skipn i a].
    - Line counts and paddings are integers of [Z]: the source subtracts
      before it clamps with [Math.max(padding, 0)].
    - The widths of [getCanSplit] and the split location are JavaScript
      numbers which can be infinite ([Math.max()] of no argument is
      [-Infinity]); they are values of [number] below.  Finite values are
      exact rationals: the rounding of binary64 arithmetic is not modelled.
    - [sass.compileString] is a parameter of the development; its calls are
      recorded in a log, and an exception it throws is the value [None].
    - [liquidEngine.renderFile], which the entry point [codeExample] calls,
      is a parameter too; a rejected promise is the value [None]. *)

From Stdlib Require Import Bool Arith ZArith QArith Lia List Ascii String.
Import ListNotations.

Local Close Scope Q_scope.
Local Open Scope string_scope.
Local Open Scope list_scope.

(** ** JavaScript strings *)

Module JsString.

(** [s.startsWith(p)], the test [split] makes at every position. *)
Fixpoint starts_with (p s : string) : bool :=
  match p, s with
  | EmptyString, _ => true
  | String _ _, EmptyString => false
  | String a p', String b s' => Ascii.eqb a b && starts_with p' s'
  end.

(** [split_from sep skip cur s] scans [s] from left to right; [cur] is the
    piece read since the last separator and [skip] the number of code
    units of a separator just matched that are still to be passed over.
    The separator is matched at the leftmost position, and matches do not
    overlap. *)
Fixpoint split_from (sep : string) (skip : nat) (cur s : string)
  : list string :=
  match s with
  | EmptyString => [cur]
  | String c s' =>
      match skip with
      | S k => split_from sep k cur s'
      | O =>
          if starts_with sep s
          then cur :: split_from sep (String.length sep - 1) "" s'
          else split_from sep 0 (cur ++ String c "") s'
      end
  end.

(** [s.split(sep)] for a non-empty separator [sep]. *)
Definition split (sep s : string) : list string :=
  split_from sep 0 "" s.

(** White space and line terminators of ECMAScript among the code units
    below 256: TAB, LF, VT, FF, CR, SP and NBSP. *)
Definition is_white_space (c : ascii) : bool :=
  let n := nat_of_ascii c in
  ((9 <=? n)%nat && (n <=? 13)%nat) || (n =? 32)%nat || (n =? 160)%nat.

Fixpoint trim_start (s : string) : string :=
  match s with
  | EmptyString => EmptyString
  | String c s' => if is_white_space c then trim_start s' else s
  end.

(** [trim_end s] removes the white space at the end of [s]: a code unit
    is kept when it is not white space or when something is kept after
    it. *)
Fixpoint trim_end (s : string) : string :=
  match s with
  | EmptyString => EmptyString
  | String c s' =>
      match trim_end s' with
      | EmptyString => if is_white_space c then "" else String c ""
      | String _ _ as t => String c t
      end
  end.

(** [s.trim()]. *)
Definition trim (s : string) : string := trim_end (trim_start s).

(** Truthiness of a possibly undefined string: [undefined] and the empty
    string are falsy. *)
Definition truthy (o : option string) : bool :=
  match o with
  | Some (String _ _) => true
  | _ => false
  end.

(** [o || ''] for a possibly undefined string [o]. *)
Definition or_empty (o : option string) : string :=
  if truthy o then match o with Some s => s | None => "" end else "".

(** A line feed, the separator of lines. *)
Definition LF : string := String "010"%char "".

End JsString.
Import JsString.


(** ** JavaScript numbers *)

Module JsNumber.

Inductive number : Type :=
| NaN
| NegInfinity
| Infinity
| Finite (q : Q).

Definition of_Z (z : Z) : number := Finite (inject_Z z).
Definition of_nat (n : nat) : number := of_Z (Z.of_nat n).

(** The sign of a number that is not [NaN]; zero has no sign here (the
    negative zero of binary64 is not modelled). *)
Definition sign (x : number) : comparison :=
  match x with
  | NaN => Eq
  | NegInfinity => Lt
  | Infinity => Gt
  | Finite q => Qcompare q 0
  end.

Definition signed_infinity (s t : comparison) : number :=
  match s, t with
  | Eq, _ | _, Eq => NaN
  | Lt, Lt | Gt, Gt => Infinity
  | Lt, Gt | Gt, Lt => NegInfinity
  end.

Definition neg (x : number) : number :=
  match x with
  | NaN => NaN
  | NegInfinity => Infinity
  | Infinity => NegInfinity
  | Finite q => Finite (Qopp q)
  end.

(** [x + y] *)
Definition add (x y : number) : number :=
  match x, y with
  | NaN, _ | _, NaN => NaN
  | Finite p, Finite q => Finite (Qplus p q)
  | Infinity, NegInfinity | NegInfinity, Infinity => NaN
  | Infinity, _ | _, Infinity => Infinity
  | NegInfinity, _ | _, NegInfinity => NegInfinity
  end.

(** [x - y] *)
Definition sub (x y : number) : number := add x (neg y).

(** [x * y] *)
Definition mul (x y : number) : number :=
  match x, y with
  | NaN, _ | _, NaN => NaN
  | Finite p, Finite q => Finite (Qmult p q)
  | _, _ => signed_infinity (sign x) (sign y)
  end.

(** [x / y]; a zero divisor counts as the positive zero. *)
Definition div (x y : number) : number :=
  match x, y with
  | NaN, _ | _, NaN => NaN
  | Finite p, Finite q =>
      if Qeq_bool q 0 then signed_infinity (sign x) Gt
      else Finite (Qdiv p q)
  | Finite _, _ => Finite 0
  | _, Finite q => signed_infinity (sign x) (if Qeq_bool q 0 then Gt else sign y)
  | _, _ => NaN
  end.

(** [x < y] *)
Definition ltb (x y : number) : bool :=
  match x, y with
  | NaN, _ | _, NaN => false
  | Finite p, Finite q => match Qcompare p q with Lt => true | _ => false end
  | NegInfinity, NegInfinity => false
  | NegInfinity, _ => true
  | Finite _, Infinity => true
  | _, _ => false
  end.

(** The larger of two numbers, [NaN] when one of them is. *)
Definition max2 (x y : number) : number :=
  match x, y with
  | NaN, _ | _, NaN => NaN
  | _, _ => if ltb x y then y else x
  end.

(** [Math.max(...xs)]: [-Infinity] for no argument. *)
Definition Math_max (xs : list number) : number :=
  fold_left max2 xs NegInfinity.

(** Truthiness: [NaN] and zero are falsy, the infinities are truthy. *)
Definition truthy (x : number) : bool :=
  match x with
  | NaN => false
  | Finite q => negb (Qeq_bool q 0)
  | _ => true
  end.

(** Numbers are compared up to the equality of rationals. *)
Definition same (x y : number) : Prop :=
  match x, y with
  | NaN, NaN | NegInfinity, NegInfinity | Infinity, Infinity => True
  | Finite p, Finite q => Qeq p q
  | _, _ => False
  end.

(** The same for a [number | null]. *)
Definition same_opt (x y : option number) : Prop :=
  match x, y with
  | None, None => True
  | Some a, Some b => same a b
  | _, _ => False
  end.

(** [lo <= x <= hi] for a finite [x]; no other number lies in a range. *)
Definition within (lo hi : Q) (x : number) : Prop :=
  match x with
  | Finite q => Qle lo q /\ Qle q hi
  | _ => False
  end.

End JsNumber.
Import JsNumber.

(** ** The paddings *)

(** [(section || '').split('\n').length] for the possibly undefined element
    [section] of an array of sections. *)
Definition lineCount (section : option string) : Z :=
  Z.of_nat (List.length (split LF (or_empty section))).

(** [getTotalPadding(sections1, sections2)]: the number of lines of padding
    needed to match the height of the [<pre>]s generated for both lists.
    The two [||= []] of the source do nothing: an array is truthy. *)
Definition getTotalPadding (sections1 sections2 : list string) : Z :=
  fold_left
    (fun (sum : Z) (i : nat) =>
       sum
       + Z.max (lineCount (nth_error sections1 i))
               (lineCount (nth_error sections2 i))
       + 2)%Z
    (seq 0 (Nat.max (List.length sections1) (List.length sections2)))
    0%Z.

(** [getPadding({isLastSection, comparisonA, comparisonB, lines, maxLines})] *)
Definition getPadding (isLastSection : bool)
  (comparisonA comparisonB : list string) (lines maxLines : Z) : Z :=
  let padding :=
    if isLastSection
    then (getTotalPadding comparisonA comparisonB - lines - 2)%Z
    else if (maxLines >? lines)%Z then (maxLines - lines)%Z
    else 0%Z in
  Z.max padding 0.

Record Paddings : Type := {
  scssPaddings : list Z;
  sassPaddings : list Z;
  cssPaddings : list Z
}.

(** [i === examples.length - 1] *)
Definition isLastIndex (i : nat) (examples : list string) : bool :=
  (Z.of_nat i =? Z.of_nat (List.length examples) - 1)%Z.

(** The body of the [forEach] of [getPaddings] up to its three calls of
    [getPadding]: the paddings of the SCSS, Sass and CSS sections of index
    [i]. *)
Definition paddingsAt (scssExamples sassExamples cssExamples : list string)
  (i : nat) : Z * Z * Z :=
  let scssLines := lineCount (nth_error scssExamples i) in
  let sassLines := lineCount (nth_error sassExamples i) in
  let cssLines := lineCount (nth_error cssExamples i) in
  let isLastScssSection := isLastIndex i scssExamples in
  let isLastSassSection := isLastIndex i sassExamples in
  let isLastCssSection := isLastIndex i cssExamples in
  let maxLines :=
    Z.max (if isLastScssSection then 0%Z else scssLines)
      (Z.max (if isLastSassSection then 0%Z else sassLines)
             (if isLastCssSection then 0%Z else cssLines)) in
  (getPadding isLastScssSection (skipn i sassExamples) (skipn i cssExamples)
     scssLines maxLines,
   getPadding isLastSassSection (skipn i scssExamples) (skipn i cssExamples)
     sassLines maxLines,
   getPadding isLastCssSection (skipn i scssExamples) (skipn i sassExamples)
     cssLines maxLines).

(** One round of the [forEach]: the three paddings are pushed on the three
    arrays. *)
Definition pushPaddings (scssExamples sassExamples cssExamples : list string)
  (acc : Paddings) (i : nat) : Paddings :=
  let '(scssPadding, sassPadding, cssPadding) :=
    paddingsAt scssExamples sassExamples cssExamples i in
  {| scssPaddings := scssPaddings acc ++ [scssPadding];
     sassPaddings := sassPaddings acc ++ [sassPadding];
     cssPaddings := cssPaddings acc ++ [cssPadding] |}.

(** [getPaddings(scssExamples, sassExamples, cssExamples)]: the lines of
    padding to add to the bottom of each section so that it lines up with
    the same section in the other syntax. *)
Definition getPaddings (scssExamples sassExamples cssExamples : list string)
  : Paddings :=
  let maxSections :=
    Nat.max (List.length scssExamples)
      (Nat.max (List.length sassExamples) (List.length cssExamples)) in
  fold_left (pushPaddings scssExamples sassExamples cssExamples)
    (seq 0 maxSections)
    {| scssPaddings := []; sassPaddings := []; cssPaddings := [] |}.

(** ** The split *)

Record SplitWidths : Type := {
  canSplit : bool;
  maxSourceWidth : number;
  maxCSSWidth : number
}.

(** [source.split('\n').map((line) => line.length)] *)
Definition lineLengths (source : string) : list number :=
  map (fun line => of_nat (String.length line)) (split LF source).

(** [getCanSplit(scssExamples, sassExamples, cssExamples)] *)
Definition getCanSplit (scssExamples sassExamples cssExamples : list string)
  : SplitWidths :=
  let exampleSourceLengths :=
    flat_map lineLengths (scssExamples ++ sassExamples) in
  let cssSourceLengths := flat_map lineLengths cssExamples in
  let maxSourceWidth := Math_max exampleSourceLengths in
  let maxCSSWidth := Math_max cssSourceLengths in
  let canSplit :=
    JsNumber.truthy maxCSSWidth
    && ltb (add maxSourceWidth maxCSSWidth) (of_Z 110) in
  {| canSplit := canSplit;
     maxSourceWidth := maxSourceWidth;
     maxCSSWidth := maxCSSWidth |}.

(** The assignment of [splitLocation] in [generateCodeExample]. *)
Definition getSplitLocation (w : SplitWidths) : option number :=
  if canSplit w then
    if ltb (maxSourceWidth w) (of_Z 55) && ltb (maxCSSWidth w) (of_Z 55)
    then Some (mul (Finite (1 # 2)) (of_Z 100))
    else
      Some (add (Finite (1 # 2))
              (mul (div (div (sub (maxSourceWidth w) (maxCSSWidth w))
                           (of_Z 110))
                      (of_Z 2))
                 (of_Z 100)))
  else None.

(** ** Exceptions and the calls of the compiler *)

(** The [syntax] parameter: ['scss'], ['sass'], or [null] ([None]) when the
    example holds both syntaxes. *)
Inductive Syntax : Type := scss_only | sass_only.

(** The [syntax] option of [sass.compileString]. *)
Inductive CompileSyntax : Type := indented | scss_syntax.

(** What [generateCodeExample] throws: its two [Error]s, with their
    messages, and whatever the compiler throws. *)
Inductive Exception : Type :=
| MalformedInputError (message : string)
| CannotAutoGenerateError (message : string)
| CompilerException.

(** [sass.compileString(source, {syntax}).css], [None] when it throws. *)
Definition Compiler : Type := string -> CompileSyntax -> option string.

Definition Call : Type := (string * CompileSyntax)%type.

Inductive Outcome (A : Type) : Type :=
| Returns (value : A)
| Throws (exception : Exception).
Arguments Returns {A} value.
Arguments Throws {A} exception.

(** A computation that may throw and that records the calls of the
    compiler it makes, oldest first. *)
Definition Run (A : Type) : Type := list Call -> list Call * Outcome A.

Definition ret {A : Type} (a : A) : Run A := fun calls => (calls, Returns a).

Definition throw {A : Type} (e : Exception) : Run A :=
  fun calls => (calls, Throws e).

Definition bind {A B : Type} (m : Run A) (k : A -> Run B) : Run B :=
  fun calls =>
    match m calls with
    | (calls', Returns a) => k a calls'
    | (calls', Throws e) => (calls', Throws e)
    end.

Definition compile (compileString : Compiler) (source : string)
  (syntax : CompileSyntax) : Run string :=
  fun calls =>
    (calls ++ [(source, syntax)],
     match compileString source syntax with
     | Some css => Returns css
     | None => Throws CompilerException
     end).

Declare Scope run_scope.
Delimit Scope run_scope with run.
Notation "x <- m ;; k" := (bind m (fun x => k))
  (at level 61, m at next level, right associativity) : run_scope.
Notation "' p <- m ;; k" := (bind m (fun x => let 'p := x in k))
  (at level 61, p pattern, m at next level, right associativity) : run_scope.

(** ** The code example *)

Definition variantSeparator : string := LF ++ "===" ++ LF.
Definition sectionSeparator : string := LF ++ "---" ++ LF.

Definition couldntFind (contents : string) : string :=
  "Couldn't find === in:" ++ LF ++ contents.

Definition cantAutoGenerate : string :=
  "Can't auto-generate CSS from more than one SCSS block.".

(** [contents?.split('\n---\n').map((str) => str.trim()) ?? []] *)
Definition examplesOf (contents : option string) : list string :=
  match contents with
  | Some text => map trim (split sectionSeparator text)
  | None => []
  end.

Module Code.
Record t : Type := {
  scss : list string;
  sass : list string;
  css : list string;
  scssPaddings : list Z;
  sassPaddings : list Z;
  cssPaddings : list Z;
  canSplit : bool;
  splitLocation : option number
}.
End Code.

(** The [switch] on [syntax]: the contents of the SCSS, Sass and CSS
    blocks. *)
Definition selectContents (contents : string) (syntax : option Syntax)
  : Run (option string * option string * option string) :=
  let splitContents := split variantSeparator contents in
  match syntax with
  | Some scss_only =>
      ret (nth_error splitContents 0, None, nth_error splitContents 1)
  | Some sass_only =>
      ret (None, nth_error splitContents 0, nth_error splitContents 1)
  | None =>
      let sassContents := nth_error splitContents 1 in
      if negb (JsString.truthy sassContents)
      then throw (MalformedInputError (couldntFind contents))
      else ret (nth_error splitContents 0, sassContents,
                nth_error splitContents 2)
  end.

(** The sections the CSS is generated from:
    [scssContents ? scssExamples : sassExamples]. *)
Definition autogenSections (scssContents : option string)
  (scssExamples sassExamples : list string) : list string :=
  if JsString.truthy scssContents then scssExamples else sassExamples.

(** The [if (!cssContents && autogenCSS)] of [generateCodeExample]: the
    contents of the CSS block after it. *)
Definition resolveCss (compileString : Compiler) (autogenCSS : bool)
  (syntax : option Syntax) (scssContents cssContents : option string)
  (scssExamples sassExamples : list string) : Run (option string) :=
  if negb (JsString.truthy cssContents) && autogenCSS then
    match autogenSections scssContents scssExamples sassExamples with
    | [source] =>
        (generated <-
           compile compileString source
             match syntax with
             | Some sass_only => indented
             | _ => scss_syntax
             end ;;
         ret (Some generated))%run
    | _ => throw (CannotAutoGenerateError cantAutoGenerate)
    end
  else ret cssContents.

Definition generateCodeExample (compileString : Compiler)
  (contents : string) (autogenCSS : bool) (syntax : option Syntax)
  : Run Code.t :=
  ('(scssContents, sassContents, cssContents) <-
     selectContents contents syntax ;;
   let scssExamples := examplesOf scssContents in
   let sassExamples := examplesOf sassContents in
   cssContents <-
     resolveCss compileString autogenCSS syntax scssContents cssContents
       scssExamples sassExamples ;;
   let cssExamples := examplesOf cssContents in
   let paddings := getPaddings scssExamples sassExamples cssExamples in
   let widths := getCanSplit scssExamples sassExamples cssExamples in
   ret {| Code.scss := scssExamples;
          Code.sass := sassExamples;
          Code.css := cssExamples;
          Code.scssPaddings := scssPaddings paddings;
          Code.sassPaddings := sassPaddings paddings;
          Code.cssPaddings := cssPaddings paddings;
          Code.canSplit := canSplit widths;
          Code.splitLocation := getSplitLocation widths |})%run.

(** A render starts with an empty log. *)
Definition render (compileString : Compiler) (contents : string)
  (autogenCSS : bool) (syntax : option Syntax) : list Call * Outcome Code.t :=
  generateCodeExample compileString contents autogenCSS syntax [].

(** A compiler for examples: it echoes its source between braces. *)
Definition echo : Compiler :=
  fun source _ => Some ("{" ++ source ++ "}")%string.

Definition example1 : string :=
  ".foo{color:blue}" ++ LF ++ "===" ++ LF ++ ".foo" ++ LF ++ "  color: blue".


(** ** Notions of the specification *)

(** The number of line feeds of a text; a text of [n] line feeds has
    [n + 1] newline-delimited lines. *)
Fixpoint lineFeeds (s : string) : nat :=
  match s with
  | EmptyString => 0
  | String c s' => (if Ascii.eqb "010"%char c then 1 else 0) + lineFeeds s'
  end.

Definition numberOfLines (s : string) : Z := Z.of_nat (S (lineFeeds s)).

(** [sep] occurs in [s]. *)
Definition occursIn (sep s : string) : Prop :=
  exists before after : string, s = (before ++ sep ++ after)%string.

(** The same, computed: [sep] starts at some position of [s]. *)
Fixpoint contains (sep s : string) : bool :=
  starts_with sep s
  || match s with
     | EmptyString => false
     | String _ s' => contains sep s'
     end.

(** A separator whose first and last code units are [mark]. *)
Definition framed (mark : ascii) (inner : string) : string :=
  String mark (inner ++ String mark "").

(** [c] is not a code unit of [s]. *)
Fixpoint freeOf (c : ascii) (s : string) : bool :=
  match s with
  | EmptyString => true
  | String b s' => negb (Ascii.eqb c b) && freeOf c s'
  end.

(** The rendered height of the sections of [sectionsA] and [sectionsB] from
    index [from] on: each index takes the lines of the taller of its two
    sections, and two more lines for its padding and its margin. *)
Definition remainingHeight (sectionsA sectionsB : list string) (from : nat)
  : Z :=
  fold_right Z.add 0%Z
    (map (fun j =>
            (Z.max (lineCount (nth_error sectionsA j))
                   (lineCount (nth_error sectionsB j)) + 2)%Z)
       (seq from
          (Nat.max (List.length sectionsA) (List.length sectionsB) - from))).

(** The block the CSS is meant to be generated from: the block of the
    selected syntax, and the SCSS block when the example has both. *)
Definition sourceContents (syntax : option Syntax)
  (scssContents sassContents : option string) : option string :=
  match syntax with
  | Some sass_only => sassContents
  | _ => scssContents
  end.

(** The three variants of an example, with their sections, their
    paddings, and the two lists a variant is compared with (in the order of
    [comparisonA] and [comparisonB]). *)
Inductive Variant : Type := scssVariant | sassVariant | cssVariant.

Definition sectionsOf (v : Variant) (scss sass css : list string)
  : list string :=
  match v with
  | scssVariant => scss
  | sassVariant => sass
  | cssVariant => css
  end.

Definition paddingsOf (v : Variant) (p : Paddings) : list Z :=
  match v with
  | scssVariant => scssPaddings p
  | sassVariant => sassPaddings p
  | cssVariant => cssPaddings p
  end.

Definition comparisonA (v : Variant) (scss sass css : list string)
  : list string :=
  match v with
  | scssVariant => sass
  | sassVariant | cssVariant => scss
  end.

Definition comparisonB (v : Variant) (scss sass css : list string)
  : list string :=
  match v with
  | scssVariant | sassVariant => css
  | cssVariant => sass
  end.

Definition codeSections (v : Variant) (code : Code.t) : list string :=
  sectionsOf v (Code.scss code) (Code.sass code) (Code.css code).

Definition codePaddings (v : Variant) (code : Code.t) : list Z :=
  match v with
  | scssVariant => Code.scssPaddings code
  | sassVariant => Code.sassPaddings code
  | cssVariant => Code.cssPaddings code
  end.

(** The largest number of sections of a variant. *)
Definition maxSections (scss sass css : list string) : nat :=
  Nat.max (List.length scss) (Nat.max (List.length sass) (List.length css)).

(** The lines of the section of index [i], as [getPaddings] and
    [getTotalPadding] count them: a missing section counts as the empty
    text, which has one line. *)
Definition linesAt (sections : list string) (i : nat) : Z :=
  match nth_error sections i with
  | Some section => numberOfLines section
  | None => 1%Z
  end.

(** The result of [generateCodeExample] on [example1]. *)
Definition example1Code : Code.t :=
  {| Code.scss := [".foo{color:blue}"];
     Code.sass := [(".foo" ++ LF ++ "  color: blue")%string];
     Code.css := [];
     Code.scssPaddings := [1%Z];
     Code.sassPaddings := [0%Z];
     Code.cssPaddings := [0%Z];
     Code.canSplit := true;
     Code.splitLocation := Some (mul (Finite (1 # 2)) (of_Z 100)) |}.

(** What the specification expects of [example1]. *)
Definition example1Expected (code : Code.t) : Prop :=
  Code.scss code = [".foo{color:blue}"]
  /\ Code.sass code = [(".foo" ++ LF ++ "  color: blue")%string]
  /\ Code.css code = []
  /\ Code.scssPaddings code = [0%Z]
  /\ Code.sassPaddings code = [0%Z]
  /\ Code.cssPaddings code = [0%Z]
  /\ Code.canSplit code = false
  /\ Code.splitLocation code = None.

(** An SCSS block of one line of 10 code units and a CSS block of one line
    of 90 code units. *)
Definition narrowAndWide : string :=
  ("aaaaaaaaaa" ++ LF ++ "===" ++ LF
   ++ "bbbbbbbbbbbbbbbbbbbbbbbbbbbbbb"
   ++ "bbbbbbbbbbbbbbbbbbbbbbbbbbbbbb"
   ++ "bbbbbbbbbbbbbbbbbbbbbbbbbbbbbb")%string.

(** The sections of the selected syntax in a result. *)
Definition selectedSections (selected : Syntax) (code : Code.t)
  : list string :=
  match selected with
  | scss_only => Code.scss code
  | sass_only => Code.sass code
  end.

(** The syntax [generateCodeExample] declares to the compiler. *)
Definition declaredSyntax (syntax : option Syntax) : CompileSyntax :=
  match syntax with
  | Some sass_only => indented
  | _ => scss_syntax
  end.

(** An input with a [===] separator after which nothing follows. *)
Definition emptySecondBlock : string := ("a" ++ LF ++ "===" ++ LF)%string.

(** A compiler whose CSS holds a line [---]. *)
Definition ruled : Compiler :=
  fun _ _ => Some ("x" ++ LF ++ "---" ++ LF ++ "y")%string.

(** Two sections of one syntax. *)
Definition twoSections : string := ("a" ++ LF ++ "---" ++ LF ++ "b")%string.

(** An input whose first line is [===]. *)
Definition leadingSeparator : string :=
  ("===" ++ LF ++ "a" ++ LF ++ "===" ++ LF ++ "b")%string.

(** The lengths of the lines of some sections, and the largest of them
    (0 when there is none). *)
Definition widths (sections : list string) : list nat :=
  flat_map (fun source => map String.length (split LF source)) sections.

Definition maxWidth (sections : list string) : nat := list_max (widths sections).

(** An input of both syntaxes whose SCSS block is empty. *)
Definition sassAlone : string :=
  (LF ++ "===" ++ LF ++ ".a" ++ LF ++ "  color: red")%string.

(** All code units of [s] are white space. *)
Fixpoint allWhiteSpace (s : string) : bool :=
  match s with
  | EmptyString => true
  | String c s' => is_white_space c && allWhiteSpace s'
  end.

(** The first, and the last, code unit of [s] is white space. *)
Definition startsWithWhiteSpace (s : string) : bool :=
  match s with
  | EmptyString => false
  | String c _ => is_white_space c
  end.

Fixpoint endsWithWhiteSpace (s : string) : bool :=
  match s with
  | EmptyString => false
  | String c EmptyString => is_white_space c
  | String _ s' => endsWithWhiteSpace s'
  end.

(** No occurrence of [sep] in [cur ++ s] starts inside [cur]. *)
Fixpoint noMatchIn (sep cur s : string) : bool :=
  match cur with
  | EmptyString => true
  | String _ cur' => negb (starts_with sep (cur ++ s)) && noMatchIn sep cur' s
  end.

(** ** The entry point *)

(** [liquidEngine.renderFile(file, {code, exampleName})]: the text the
    promise is fulfilled with, [None] when it is rejected. *)
Definition Engine : Type := string -> Code.t -> string -> option string.

Definition EngineCall : Type := (string * Code.t * string)%type.

(** How the promise of [codeExample] is settled. *)
Inductive Settled : Type :=
| Fulfilled (html : string)
| Rejected (exception : Exception)
| EngineRejected.

Record Completion : Type := {
  compilerCalls : list Call;
  engineCalls : list EngineCall;
  settled : Settled
}.

Definition templateFile : string := "code_examples/code_example".

(** [codeExample(contents, exampleName, autogenCSS = true, syntax = null)];
    an omitted [autogenCSS] is [None], an omitted [syntax] is [null]. *)
Definition codeExample (compileString : Compiler) (renderFile : Engine)
  (contents exampleName : string) (autogenCSS : option bool)
  (syntax : option Syntax) : Completion :=
  let autogenCSS := match autogenCSS with Some flag => flag | None => true end in
  match generateCodeExample compileString contents autogenCSS syntax [] with
  | (calls, Returns code) =>
      {| compilerCalls := calls;
         engineCalls := [(templateFile, code, exampleName)];
         settled :=
           match renderFile templateFile code exampleName with
           | Some html => Fulfilled html
           | None => EngineRejected
           end |}
  | (calls, Throws e) =>
      {| compilerCalls := calls; engineCalls := []; settled := Rejected e |}
  end.

(** An engine for examples: it returns the name of the example. *)
Definition nameOnly : Engine := fun _ _ exampleName => Some exampleName.

(** A compiler that generates no CSS. *)
Definition silent : Compiler := fun _ _ => Some ""%string.

(** The lines of the section of index [j] as the specification counts
    them: the newline-delimited lines of the section, 0 without section. *)
Definition realLines (sections : list string) (j : nat) : Z :=
  match nth_error sections j with
  | Some section => numberOfLines section
  | None => 0%Z
  end.

(** The height at which the sections of [sectionsA] and [sectionsB] are
    rendered from index [from] on: at each index the lines of the taller of
    the two sections, and two more lines for its padding and its margin. *)
Definition renderedHeight (sectionsA sectionsB : list string) (from : nat)
  : Z :=
  fold_right Z.add 0%Z
    (map (fun j =>
            (Z.max (realLines sectionsA j) (realLines sectionsB j) + 2)%Z)
       (seq from
          (Nat.max (List.length sectionsA) (List.length sectionsB) - from))).

(** * Properties *)

#[local] Arguments Ascii.eqb : simpl never.

(** ** Strings *)

Example split_two_pieces : split "," "a,b" = ["a"; "b"]%string.
Proof. reflexivity. Qed.

Example split_empty_text : split "," "" = [""%string].
Proof. reflexivity. Qed.

Example split_at_the_end : split "=>" "a=>" = ["a"; ""]%string.
Proof. reflexivity. Qed.

Example split_leftmost_match : split "aa" "aaa" = [""; "a"]%string.
Proof. reflexivity. Qed.

Example trim_both_ends :
  trim ("  a b " ++ LF)%string = "a b"%string.
Proof. reflexivity. Qed.

Example trim_white_space : trim ("  " ++ LF)%string = ""%string.
Proof. reflexivity. Qed.

Lemma append_empty_r (s : string) : (s ++ "")%string = s.
Proof. induction s as [|c s IH]; simpl; [reflexivity | now rewrite IH]. Qed.

Lemma append_assoc (s t u : string) :
  ((s ++ t) ++ u)%string = (s ++ (t ++ u))%string.
Proof. induction s as [|c s IH]; simpl; [reflexivity | now rewrite IH]. Qed.

Lemma append_length (s t : string) :
  String.length (s ++ t) = (String.length s + String.length t)%nat.
Proof. induction s as [|c s IH]; simpl; [reflexivity | now rewrite IH]. Qed.

Lemma starts_with_spec (p s : string) :
  starts_with p s = true <-> exists rest, s = (p ++ rest)%string.
Proof.
  revert s; induction p as [|a p IH]; intros s; simpl.
  - split; [intros _; now exists s | reflexivity].
  - destruct s as [|b s].
    + split; [discriminate | intros [rest H]; discriminate].
    + rewrite andb_true_iff, Ascii.eqb_eq, IH. split.
      * intros [-> [rest ->]]. now exists rest.
      * intros [rest H]. injection H as -> ->. split; [reflexivity | now exists rest].
Qed.

Lemma contains_spec (sep s : string) :
  contains sep s = true <-> occursIn sep s.
Proof.
  unfold occursIn. induction s as [|c s IH]; simpl.
  - rewrite orb_false_r, starts_with_spec. split.
    + intros [rest H]. now exists ""%string, rest.
    + intros [[|b before] [after H]]; [now exists after | discriminate].
  - rewrite orb_true_iff, starts_with_spec, IH. split.
    + intros [[rest H] | [before [after H]]].
      * now exists ""%string, rest.
      * exists (String c before), after. simpl. now rewrite H.
    + intros [[|b before] [after H]].
      * left. now exists after.
      * right. simpl in H. injection H as _ H. now exists before, after.
Qed.

Lemma not_contains_spec (sep s : string) :
  contains sep s = false <-> ~ occursIn sep s.
Proof.
  rewrite <- contains_spec. destruct (contains sep s); split; intro H;
    try reflexivity; try discriminate; try (intro; discriminate).
  now elim H.
Qed.

(** A split has a first piece, which extends the piece being read. *)
Lemma split_from_first (sep : string) (s : string) :
  forall skip cur, exists first rest,
    split_from sep skip cur s = (cur ++ first)%string :: rest.
Proof.
  induction s as [|c s IH]; intros skip cur; simpl.
  - exists ""%string, []. now rewrite append_empty_r.
  - destruct skip as [|k]; [|apply IH].
    destruct (starts_with sep (String c s)).
    + exists ""%string. rewrite append_empty_r. eauto.
    + destruct (IH 0%nat (cur ++ String c "")%string) as (first & rest & H).
      exists (String c first), rest. rewrite H, append_assoc. reflexivity.
Qed.

(** Without an occurrence of the separator the text is the only piece. *)
Lemma split_from_absent (sep : string) (s : string) :
  forall cur, contains sep s = false ->
    split_from sep 0 cur s = [(cur ++ s)%string].
Proof.
  induction s as [|c s IH]; intros cur; simpl.
  - intros _. now rewrite append_empty_r.
  - rewrite orb_false_iff. intros [-> H].
    rewrite (IH _ H), append_assoc. reflexivity.
Qed.

(** With an occurrence of a non-empty separator there is a second piece. *)
Lemma split_from_present (sep : string) (s : string) :
  forall cur, sep <> ""%string -> contains sep s = true ->
    exists first second rest,
      split_from sep 0 cur s = first :: second :: rest.
Proof.
  induction s as [|c s IH]; intros cur Hsep; simpl.
  - destruct sep; [now elim Hsep | discriminate].
  - destruct (starts_with sep (String c s)) eqn:E; simpl.
    + intros _.
      destruct (split_from_first sep s (String.length sep - 1) "")
        as (first & rest & ->).
      eauto.
    + intros H. now apply IH.
Qed.

Lemma split_second_absent (sep s : string) :
  sep <> ""%string ->
  (nth_error (split sep s) 1 = None <-> ~ occursIn sep s).
Proof.
  intros Hsep. rewrite <- not_contains_spec. unfold split.
  destruct (contains sep s) eqn:E.
  - destruct (split_from_present sep s "" Hsep E) as (a & b & rest & ->).
    simpl. split; discriminate.
  - rewrite (split_from_absent sep s "" E). simpl. split; reflexivity.
Qed.

(** The code units of a matched separator are passed over. *)
Lemma split_from_skip (sep x : string) :
  forall cur rest,
    split_from sep (String.length x) cur (x ++ rest)
    = split_from sep 0 cur rest.
Proof.
  induction x as [|c x IH]; intros cur rest; simpl.
  - destruct rest; reflexivity.
  - apply IH.
Qed.

Lemma concat_cons (sep first : string) (rest : list string) :
  rest <> [] ->
  String.concat sep (first :: rest)
  = (first ++ sep ++ String.concat sep rest)%string.
Proof. destruct rest; [congruence | reflexivity]. Qed.

(** The pieces of a text, joined by the separator, are the text:
    [s.split(sep).join(sep) === s]. *)
Lemma split_from_join (sep : string) (n : nat) :
  sep <> ""%string ->
  forall s cur,
    (String.length s <= n)%nat ->
    String.concat sep (split_from sep 0 cur s) = (cur ++ s)%string.
Proof.
  intros Hsep. induction n as [|n IH]; intros s cur Hlen.
  - destruct s; [|simpl in Hlen; lia]. simpl. now rewrite append_empty_r.
  - destruct s as [|c s]; [simpl; now rewrite append_empty_r|].
    cbn [split_from].
    destruct (starts_with sep (String c s)) eqn:E.
    + apply starts_with_spec in E as [rest E].
      destruct sep as [|a sep']; [now elim Hsep|].
      simpl in E. injection E as -> ->.
      replace (String.length (String a sep') - 1)%nat
        with (String.length sep') by (simpl; lia).
      rewrite split_from_skip.
      destruct (split_from_first (String a sep') rest 0 "")
        as (first & others & Hfirst).
      rewrite concat_cons by (rewrite Hfirst; discriminate).
      rewrite IH.
      * reflexivity.
      * simpl in Hlen. rewrite append_length in Hlen. lia.
    + rewrite IH by (simpl in Hlen; lia).
      now rewrite append_assoc.
Qed.

Lemma split_join (sep s : string) :
  sep <> ""%string -> String.concat sep (split sep s) = s.
Proof.
  intros Hsep. exact (split_from_join sep (String.length s) Hsep s "" (le_n _)).
Qed.

(** Splitting on line feeds yields one piece more than there are line
    feeds. *)
Lemma split_lines_length (s : string) :
  forall cur, List.length (split_from LF 0 cur s) = S (lineFeeds s).
Proof.
  induction s as [|c s IH]; intros cur; simpl; [reflexivity|].
  destruct (Ascii.eqb "010"%char c); simpl; now rewrite IH.
Qed.

Lemma lineCount_present (s : string) : lineCount (Some s) = numberOfLines s.
Proof.
  unfold lineCount, numberOfLines, or_empty, split.
  destruct s as [|c s]; [reflexivity|].
  cbn [JsString.truthy]. now rewrite split_lines_length.
Qed.

Lemma lineCount_absent : lineCount None = 1%Z.
Proof. reflexivity. Qed.

Lemma lineCount_positive (o : option string) : (1 <= lineCount o)%Z.
Proof.
  destruct o as [s|]; [|now rewrite lineCount_absent].
  rewrite lineCount_present. unfold numberOfLines. lia.
Qed.

(** ** Separators at the ends of a text *)

Section Separator.

(** A separator whose first and last code units are [mark], and a [word]
    without [mark]. *)
Variable mark : ascii.
Variable inner : string.
Variable word : string.
Hypothesis word_free : freeOf mark word = true.

Lemma skip_free_prefix (p : string) :
  freeOf mark p = true ->
  forall cur rest,
    split_from (framed mark inner) 0 cur (p ++ rest)
    = split_from (framed mark inner) 0 (cur ++ p) rest.
Proof.
  induction p as [|c p IH]; simpl; intros Hp cur rest.
  - now rewrite append_empty_r.
  - apply andb_true_iff in Hp as [Hc Hp].
    apply negb_true_iff in Hc. rewrite Hc. simpl.
    rewrite (IH Hp), append_assoc. reflexivity.
Qed.

(** A text that starts with [word] has a first piece that starts with
    [word]. *)
Lemma word_at_start (s : string) :
  exists first rest,
    split (framed mark inner) (word ++ s) = (word ++ first)%string :: rest.
Proof.
  unfold split. rewrite (skip_free_prefix word word_free).
  destruct (split_from_first (framed mark inner) s 0 ("" ++ word))
    as (first & rest & H).
  exists first, rest. exact H.
Qed.

(** A match of [q ++ [mark]] at the start of [u ++ t], with [t] free of
    [mark], ends inside [u]. *)
Lemma match_ends_before (q : string) :
  forall u t, freeOf mark t = true ->
    starts_with (q ++ String mark "") (u ++ t) = true ->
    (String.length q < String.length u)%nat.
Proof.
  induction q as [|a q IH]; intros u t Ht; simpl.
  - destruct u as [|b u]; simpl; [|lia].
    destruct t as [|b t]; [discriminate|]. simpl in Ht.
    apply andb_true_iff in Ht as [Hb _]. apply negb_true_iff in Hb.
    rewrite Hb. discriminate.
  - destruct u as [|b u]; simpl.
    + destruct t as [|b t]; [discriminate|]. simpl in Ht.
      apply andb_true_iff in Ht as [_ Ht].
      rewrite andb_true_iff. intros [_ H].
      specialize (IH ""%string t Ht H). simpl in IH. lia.
    + rewrite andb_true_iff. intros [_ H].
      specialize (IH u t Ht H). lia.
Qed.

Lemma split_from_word_end (u : string) :
  forall skip cur, (skip <= String.length u)%nat ->
    exists front last,
      split_from (framed mark inner) skip cur (u ++ word)
      = front ++ [(last ++ word)%string].
Proof.
  induction u as [|c u IH]; intros skip cur Hskip.
  - simpl in Hskip. assert (skip = 0%nat) as -> by lia. simpl.
    exists [], cur.
    pose proof (skip_free_prefix word word_free cur "") as H.
    rewrite append_empty_r in H. exact H.
  - simpl in Hskip. cbn [append split_from].
    destruct skip as [|k].
    + destruct (starts_with (framed mark inner) (String c (u ++ word))) eqn:E.
      * assert (Hlen : (String.length (String mark inner)
                        < String.length (String c u))%nat).
        { apply (match_ends_before (String mark inner) (String c u) word
                   word_free).
          exact E. }
        destruct (IH (String.length (framed mark inner) - 1)%nat ""%string)
          as (front & last & H).
        { unfold framed. simpl in *. rewrite append_length. simpl. lia. }
        exists (cur :: front), last. now rewrite H.
      * apply IH. lia.
    + apply IH. lia.
Qed.

(** A text that ends with [word] has a last piece that ends with [word]. *)
Lemma word_at_end (s : string) :
  exists front last,
    split (framed mark inner) (s ++ word) = front ++ [(last ++ word)%string].
Proof. apply split_from_word_end. lia. Qed.

End Separator.

(** ** Paddings *)

Lemma fold_pushPaddings (scss sass css : list string) (n : nat) :
  forall start acc,
    let result := fold_left (pushPaddings scss sass css) (seq start n) acc in
    let at_ := paddingsAt scss sass css in
    scssPaddings result
    = scssPaddings acc ++ map (fun i => fst (fst (at_ i))) (seq start n)
    /\ sassPaddings result
       = sassPaddings acc ++ map (fun i => snd (fst (at_ i))) (seq start n)
    /\ cssPaddings result
       = cssPaddings acc ++ map (fun i => snd (at_ i)) (seq start n).
Proof.
  induction n as [|n IH]; intros start acc; cbn zeta.
  - simpl. now rewrite !app_nil_r.
  - cbn [seq fold_left map].
    destruct (IH (S start) (pushPaddings scss sass css acc start))
      as (H1 & H2 & H3).
    rewrite H1, H2, H3. unfold pushPaddings.
    destruct (paddingsAt scss sass css start) as [[a b] c]. simpl.
    now rewrite <- !app_assoc.
Qed.

Lemma getPaddings_map (scss sass css : list string) :
  let n := Nat.max (List.length scss)
             (Nat.max (List.length sass) (List.length css)) in
  let at_ := paddingsAt scss sass css in
  scssPaddings (getPaddings scss sass css)
  = map (fun i => fst (fst (at_ i))) (seq 0 n)
  /\ sassPaddings (getPaddings scss sass css)
     = map (fun i => snd (fst (at_ i))) (seq 0 n)
  /\ cssPaddings (getPaddings scss sass css)
     = map (fun i => snd (at_ i)) (seq 0 n).
Proof.
  cbn zeta. unfold getPaddings.
  apply (fold_pushPaddings scss sass css _ 0%nat
           {| scssPaddings := []; sassPaddings := []; cssPaddings := [] |}).
Qed.

Lemma getPaddings_length (scss sass css : list string) :
  let n := Nat.max (List.length scss)
             (Nat.max (List.length sass) (List.length css)) in
  List.length (scssPaddings (getPaddings scss sass css)) = n
  /\ List.length (sassPaddings (getPaddings scss sass css)) = n
  /\ List.length (cssPaddings (getPaddings scss sass css)) = n.
Proof.
  cbn zeta. destruct (getPaddings_map scss sass css) as (-> & -> & ->).
  now rewrite !length_map, !length_seq.
Qed.

Lemma getPaddings_nth (scss sass css : list string) (i : nat) :
  (i < Nat.max (List.length scss)
         (Nat.max (List.length sass) (List.length css)))%nat ->
  (nth i (scssPaddings (getPaddings scss sass css)) 0%Z,
   nth i (sassPaddings (getPaddings scss sass css)) 0%Z,
   nth i (cssPaddings (getPaddings scss sass css)) 0%Z)
  = paddingsAt scss sass css i.
Proof.
  intros Hi. destruct (getPaddings_map scss sass css) as (-> & -> & ->).
  set (at_ := paddingsAt scss sass css).
  rewrite (nth_indep _ 0%Z (fst (fst (at_ 0%nat))))
    by now rewrite length_map, length_seq.
  rewrite (nth_indep _ 0%Z (snd (fst (at_ 0%nat))))
    by now rewrite length_map, length_seq.
  rewrite (nth_indep _ 0%Z (snd (at_ 0%nat)))
    by now rewrite length_map, length_seq.
  rewrite (map_nth (fun i => fst (fst (at_ i)))),
    (map_nth (fun i => snd (fst (at_ i)))),
    (map_nth (fun i => snd (at_ i))), seq_nth by exact Hi.
  change (0 + i)%nat with i. now destruct (at_ i) as [[a b] c].
Qed.

(** *** The total padding is the remaining height *)

Lemma fold_left_sum (f : nat -> Z) (l : list nat) :
  forall acc,
    fold_left (fun (sum : Z) (i : nat) => (sum + f i + 2)%Z) l acc
    = (acc + fold_right Z.add 0 (map (fun i => f i + 2) l))%Z.
Proof.
  induction l as [|i l IH]; intros acc; simpl; [lia|].
  rewrite IH. lia.
Qed.

Lemma getTotalPadding_skipn (sectionsA sectionsB : list string) (i : nat) :
  getTotalPadding (skipn i sectionsA) (skipn i sectionsB)
  = remainingHeight sectionsA sectionsB i.
Proof.
  unfold getTotalPadding, remainingHeight.
  rewrite (fold_left_sum
             (fun j => Z.max (lineCount (nth_error (skipn i sectionsA) j))
                         (lineCount (nth_error (skipn i sectionsB) j)))).
  rewrite !length_skipn, Z.add_0_l.
  replace (Nat.max (List.length sectionsA - i) (List.length sectionsB - i))
    with (Nat.max (List.length sectionsA) (List.length sectionsB) - i)%nat
    by lia.
  f_equal.
  generalize (Nat.max (List.length sectionsA) (List.length sectionsB) - i)%nat
    as n.
  intros n.
  assert (H : forall k,
             map (fun j =>
                    (Z.max (lineCount (nth_error (skipn i sectionsA) j))
                       (lineCount (nth_error (skipn i sectionsB) j)) + 2)%Z)
               (seq k n)
             = map (fun j =>
                      (Z.max (lineCount (nth_error sectionsA j))
                         (lineCount (nth_error sectionsB j)) + 2)%Z)
                 (seq (i + k) n)).
  { induction n as [|n IH]; intros k; simpl; [reflexivity|].
    rewrite !nth_error_skipn, (IH (S k)), Nat.add_succ_r. reflexivity. }
  rewrite (H 0%nat), Nat.add_0_r. reflexivity.
Qed.

Lemma getTotalPadding_height (sectionsA sectionsB : list string) :
  getTotalPadding sectionsA sectionsB = remainingHeight sectionsA sectionsB 0.
Proof. exact (getTotalPadding_skipn sectionsA sectionsB 0). Qed.

Lemma remainingHeight_step (sectionsA sectionsB : list string) (i : nat) :
  (i < Nat.max (List.length sectionsA) (List.length sectionsB))%nat ->
  remainingHeight sectionsA sectionsB i
  = (Z.max (lineCount (nth_error sectionsA i))
           (lineCount (nth_error sectionsB i)) + 2
     + remainingHeight sectionsA sectionsB (S i))%Z.
Proof.
  intros Hi. unfold remainingHeight.
  replace (Nat.max (List.length sectionsA) (List.length sectionsB) - i)%nat
    with (S (Nat.max (List.length sectionsA) (List.length sectionsB) - S i))
    by lia.
  simpl. lia.
Qed.

Lemma remainingHeight_nonneg (sectionsA sectionsB : list string) (i : nat) :
  (0 <= remainingHeight sectionsA sectionsB i)%Z.
Proof.
  unfold remainingHeight.
  generalize (seq i (Nat.max (List.length sectionsA)
                       (List.length sectionsB) - i)) as l.
  induction l as [|j l IH]; simpl; [lia|].
  pose proof (lineCount_positive (nth_error sectionsA j)). lia.
Qed.

(** The padding of a last section reaches the height of the sections it is
    compared with, less the two lines of its own padding and margin. *)
Lemma last_padding_height (sectionsA sectionsB : list string) (i : nat)
  (lines maxLines : Z) :
  (getPadding true (skipn i sectionsA) (skipn i sectionsB) lines maxLines
   + lines
   = Z.max (remainingHeight sectionsA sectionsB i - 2) lines)%Z.
Proof.
  unfold getPadding. rewrite getTotalPadding_skipn. lia.
Qed.

Lemma paddingsOf_at (v : Variant) (scss sass css : list string) (i : nat) :
  (i < maxSections scss sass css)%nat ->
  nth i (paddingsOf v (getPaddings scss sass css)) 0%Z
  = getPadding (isLastIndex i (sectionsOf v scss sass css))
      (skipn i (comparisonA v scss sass css))
      (skipn i (comparisonB v scss sass css))
      (lineCount (nth_error (sectionsOf v scss sass css) i))
      (Z.max (if isLastIndex i scss then 0%Z
              else lineCount (nth_error scss i))
         (Z.max (if isLastIndex i sass then 0%Z
                 else lineCount (nth_error sass i))
            (if isLastIndex i css then 0%Z
             else lineCount (nth_error css i)))).
Proof.
  intros Hi. pose proof (getPaddings_nth scss sass css i Hi) as H.
  unfold paddingsAt in H. injection H as H1 H2 H3.
  destruct v; simpl; assumption.
Qed.

(** ** The result of a render *)

Lemma render_returns (compileString : Compiler) (contents : string)
  (autogenCSS : bool) (syntax : option Syntax) (calls : list Call)
  (code : Code.t) :
  render compileString contents autogenCSS syntax = (calls, Returns code) ->
  let paddings := getPaddings (Code.scss code) (Code.sass code) (Code.css code) in
  let widths := getCanSplit (Code.scss code) (Code.sass code) (Code.css code) in
  (forall v, codePaddings v code = paddingsOf v paddings)
  /\ Code.canSplit code = canSplit widths
  /\ Code.splitLocation code = getSplitLocation widths.
Proof.
  unfold render, generateCodeExample, bind.
  destruct (selectContents contents syntax []) as [calls1 [[[a b] c]|e]];
    [|discriminate].
  destruct (resolveCss compileString autogenCSS syntax a c (examplesOf a)
              (examplesOf b) calls1) as [calls2 [generated|e]];
    [|discriminate].
  unfold ret. intros H. injection H as _ <-. cbn zeta. simpl.
  split; [intros []; reflexivity | split; reflexivity].
Qed.

(** ** The lengths of the padding tables *)

(** C3, as stated, fails on the first example of the specification: the
    example has no CSS section, and its CSS padding table has one entry. *)
Lemma C3_counterexample :
  render echo example1 false None = ([], Returns example1Code)
  /\ List.length (codePaddings cssVariant example1Code)
     <> List.length (codeSections cssVariant example1Code).
Proof. split; [reflexivity | discriminate]. Qed.

(** C3, amended: in every result of a render, the padding table of every
    variant has as many entries as the longest of the three lists of
    sections has sections.  It has as many entries as the variant has
    sections exactly when no other variant has more sections; so when the
    two syntaxes have [n] sections each and the CSS has at most [n], the
    three tables have [n] entries, the number of sections of both
    syntaxes. *)
Theorem C3_padding_tables_length (compileString : Compiler)
  (contents : string) (autogenCSS : bool) (syntax : option Syntax)
  (calls : list Call) (code : Code.t) :
  render compileString contents autogenCSS syntax = (calls, Returns code) ->
  let n := maxSections (Code.scss code) (Code.sass code) (Code.css code) in
  (forall v, List.length (codePaddings v code) = n)
  /\ (forall v,
        List.length (codePaddings v code) = List.length (codeSections v code)
        <-> forall w, (List.length (codeSections w code)
                       <= List.length (codeSections v code))%nat)
  /\ (List.length (Code.scss code) = List.length (Code.sass code) ->
      (List.length (Code.css code) <= List.length (Code.scss code))%nat ->
      forall v, List.length (codePaddings v code)
                = List.length (Code.scss code)).
Proof.
  intros Hrender n.
  destruct (render_returns _ _ _ _ _ _ Hrender) as (Hp & _ & _).
  assert (Hlen : forall v, List.length (codePaddings v code) = n).
  { intros v. rewrite Hp.
    destruct (getPaddings_length (Code.scss code) (Code.sass code)
                (Code.css code)) as (H1 & H2 & H3).
    destruct v; assumption. }
  split; [exact Hlen|]. split.
  - intros v. rewrite Hlen. unfold n, maxSections, codeSections. split.
    + intros H w. destruct v, w; simpl in *; lia.
    + intros H.
      pose proof (H scssVariant). pose proof (H sassVariant).
      pose proof (H cssVariant). destruct v; simpl in *; lia.
  - intros H1 H2 v. rewrite Hlen. unfold n, maxSections. lia.
Qed.

Lemma C3_padding_tables_length_witness :
  render echo example1 false None = ([], Returns example1Code)
  /\ List.length (codePaddings cssVariant example1Code) = 1%nat.
Proof.
  split; [reflexivity|].
  exact (proj1 (C3_padding_tables_length echo example1 false None []
                  example1Code eq_refl) cssVariant).
Defined.

(** ** The lines of a section *)

(** C4, as stated, fails where a variant has no section: the lines of the
    missing section are counted as one, not as zero. *)
Lemma C4_counterexample :
  nth_error (Code.css example1Code) 0 = None
  /\ lineCount (nth_error (Code.css example1Code) 0) <> 0%Z.
Proof. split; [reflexivity | discriminate]. Qed.

(** C4, amended: the line count of the section of a variant at index [i]
    is the number of newline-delimited lines of that section, and it is 1
    when the variant has no section at that index (the missing section is
    taken as the empty text, which has one line).  [getPaddings] counts the
    lines of its three variants so, and [getTotalPadding] sums these counts:
    at every index the larger of the two counts, plus 2. *)
Theorem C4_line_counts (sections : list string) (i : nat) :
  (forall section,
      nth_error sections i = Some section ->
      lineCount (nth_error sections i) = numberOfLines section)
  /\ (nth_error sections i = None -> lineCount (nth_error sections i) = 1%Z)
  /\ (forall scss sass css v,
        sectionsOf v scss sass css = sections ->
        (i < maxSections scss sass css)%nat ->
        isLastIndex i sections = false ->
        nth i (paddingsOf v (getPaddings scss sass css)) 0%Z
        = Z.max
            (Z.max (if isLastIndex i scss then 0 else linesAt scss i)
               (Z.max (if isLastIndex i sass then 0 else linesAt sass i)
                  (if isLastIndex i css then 0 else linesAt css i))
             - linesAt sections i) 0)%Z
  /\ (forall sections2,
        getTotalPadding sections sections2
        = fold_right Z.add 0%Z
            (map (fun j =>
                    (Z.max (linesAt sections j) (linesAt sections2 j) + 2)%Z)
               (seq 0 (Nat.max (List.length sections)
                         (List.length sections2))))).
Proof.
  assert (Hlines : forall examples j,
             lineCount (nth_error examples j) = linesAt examples j).
  { intros examples j. unfold linesAt.
    destruct (nth_error examples j) as [section|].
    - apply lineCount_present.
    - apply lineCount_absent. }
  split; [|split; [|split]].
  - intros section ->. apply lineCount_present.
  - intros ->. apply lineCount_absent.
  - intros scss sass css v <- Hi Hlast.
    rewrite (paddingsOf_at v scss sass css i Hi), Hlast.
    rewrite !Hlines. unfold getPadding.
    destruct (Z.gtb_spec
                (Z.max (if isLastIndex i scss then 0 else linesAt scss i)
                   (Z.max (if isLastIndex i sass then 0 else linesAt sass i)
                      (if isLastIndex i css then 0 else linesAt css i)))
                (linesAt (sectionsOf v scss sass css) i))%Z; lia.
  - intros sections2. rewrite getTotalPadding_height. unfold remainingHeight.
    rewrite Nat.sub_0_r. f_equal. apply map_ext. intros j.
    now rewrite !Hlines.
Qed.

Lemma C4_line_counts_witness :
  lineCount (nth_error (Code.css example1Code) 0) = 1%Z
  /\ lineCount (nth_error (Code.sass example1Code) 0) = 2%Z.
Proof.
  split.
  - exact (proj1 (proj2 (C4_line_counts (Code.css example1Code) 0)) eq_refl).
  - exact (proj1 (C4_line_counts (Code.sass example1Code) 0) _ eq_refl).
Defined.

(** ** The first example *)

(** C5, as stated, fails: the render of the first example does not return
    what the specification expects of it. *)
Lemma C5_counterexample :
  render echo example1 false None = ([], Returns example1Code)
  /\ ~ example1Expected example1Code.
Proof.
  split; [reflexivity|].
  intros (_ & _ & _ & H & _). discriminate H.
Qed.

(** C5, amended: on the first example, without generated CSS and with both
    syntaxes, the render returns the SCSS sections [".foo{color:blue}"],
    the Sass sections [".foo\n  color: blue"], no CSS section, the SCSS
    paddings [1] (the SCSS section is one line shorter than the Sass
    section it is shown next to) and the Sass and CSS paddings [0]; the
    compiler is not called. *)
Theorem C5_example1 (compileString : Compiler) :
  exists code,
    render compileString example1 false None = ([], Returns code)
    /\ Code.scss code = [".foo{color:blue}"]
    /\ Code.sass code = [(".foo" ++ LF ++ "  color: blue")%string]
    /\ Code.css code = []
    /\ Code.scssPaddings code = [1%Z]
    /\ Code.sassPaddings code = [0%Z]
    /\ Code.cssPaddings code = [0%Z].
Proof.
  exists example1Code. repeat split; reflexivity.
Qed.

(** ** The padding of a last section *)

Lemma lines_of_taller (sectionsA sectionsB : list string) (j : nat) :
  (j < Nat.max (List.length sectionsA) (List.length sectionsB))%nat ->
  Z.max (lineCount (nth_error sectionsA j)) (lineCount (nth_error sectionsB j))
  = Z.max (realLines sectionsA j) (realLines sectionsB j).
Proof.
  intros Hj. unfold realLines.
  destruct (nth_error sectionsA j) as [a|] eqn:EA;
    destruct (nth_error sectionsB j) as [b|] eqn:EB;
    rewrite ?lineCount_present, ?lineCount_absent;
    unfold numberOfLines; try lia.
  apply nth_error_None in EA, EB. lia.
Qed.

(** The height the code sums is the height at which the sections are
    rendered. *)
Lemma remainingHeight_rendered (sectionsA sectionsB : list string) (from : nat) :
  remainingHeight sectionsA sectionsB from
  = renderedHeight sectionsA sectionsB from.
Proof.
  unfold remainingHeight, renderedHeight. f_equal.
  apply map_ext_in. intros j Hj. apply in_seq in Hj.
  rewrite lines_of_taller by lia. reflexivity.
Qed.

(** C6, as stated, fails for one SCSS section ["a"] beside the two Sass
    sections ["a"] and ["b"]: the padding of the SCSS section is 3, with its
    one line that makes 4, and the Sass sections from that index on are
    rendered on (1 + 2) + (1 + 2) = 6 lines. *)
Lemma C6_counterexample :
  (List.length ["a"%string] < List.length ["a"%string; "b"%string])%nat
  /\ nth 0 (scssPaddings (getPaddings ["a"] ["a"; "b"] [])) 0%Z = 3%Z
  /\ numberOfLines "a" = 1%Z
  /\ renderedHeight ["a"; "b"] [] 0 = 6%Z
  /\ ~ (nth 0 (scssPaddings (getPaddings ["a"] ["a"; "b"] [])) 0
        + numberOfLines "a"
        >= renderedHeight ["a"; "b"] [] 0)%Z.
Proof.
  split; [simpl; lia|]. split; [reflexivity|]. split; [reflexivity|].
  split; [reflexivity|]. vm_compute. intros H. now apply H.
Qed.

(** C6, amended: when a variant has fewer sections than another variant,
    the padding of its last section (of index [i]), plus the number of
    newline-delimited lines of that section, plus the 2 lines of the
    section's own padding and margin, is at least the height at which the
    sections of the two other variants are rendered from index [i] on: the
    sum, over the indices from [i] on, of the larger number of lines at that
    index plus 2.  More precisely, padding plus lines is the larger of the
    lines and of that height less 2; so it is at least the height of the
    sections after index [i]. *)
Theorem C6_tail_padding (scss sass css : list string) (v w : Variant)
  (i : nat) (section : string) :
  nth_error (sectionsOf v scss sass css) i = Some section ->
  List.length (sectionsOf v scss sass css) = S i ->
  (S i < List.length (sectionsOf w scss sass css))%nat ->
  let padding := nth i (paddingsOf v (getPaddings scss sass css)) 0%Z in
  let height := renderedHeight (comparisonA v scss sass css)
                  (comparisonB v scss sass css) in
  (padding + numberOfLines section + 2 >= height i)%Z
  /\ (padding + numberOfLines section
      = Z.max (height i - 2) (numberOfLines section))%Z
  /\ (padding + numberOfLines section >= height (S i))%Z.
Proof.
  intros Hsection Hv Hw padding height.
  assert (Hmax : (i < maxSections scss sass css)%nat).
  { unfold maxSections. destruct v; simpl in Hv; lia. }
  assert (Hother : (i < Nat.max (List.length (comparisonA v scss sass css))
                          (List.length (comparisonB v scss sass css)))%nat).
  { destruct v, w; simpl in *; lia. }
  assert (Hlast : isLastIndex i (sectionsOf v scss sass css) = true).
  { unfold isLastIndex. rewrite Hv. apply Z.eqb_eq. lia. }
  assert (Heq : (padding + numberOfLines section
                 = Z.max (height i - 2) (numberOfLines section))%Z).
  { unfold padding, height.
    rewrite (paddingsOf_at v scss sass css i Hmax), Hlast, Hsection.
    rewrite lineCount_present, <- remainingHeight_rendered.
    apply last_padding_height. }
  assert (Hstep : (height i
                   = Z.max (realLines (comparisonA v scss sass css) i)
                       (realLines (comparisonB v scss sass css) i) + 2
                     + height (S i))%Z).
  { unfold height. rewrite <- !remainingHeight_rendered.
    rewrite (remainingHeight_step _ _ i Hother), lines_of_taller by exact Hother.
    reflexivity. }
  assert (Hpos : (1 <= Z.max (realLines (comparisonA v scss sass css) i)
                         (realLines (comparisonB v scss sass css) i))%Z).
  { rewrite <- lines_of_taller by exact Hother.
    pose proof (lineCount_positive
                  (nth_error (comparisonA v scss sass css) i)). lia. }
  split; [lia|]. split; [exact Heq | lia].
Qed.

Lemma C6_tail_padding_witness :
  (nth 0 (scssPaddings (getPaddings ["a"] ["a"; "b"] [])) 0
   + numberOfLines "a" + 2
   >= renderedHeight ["a"; "b"] [] 0)%Z.
Proof.
  exact (proj1 (C6_tail_padding ["a"] ["a"; "b"] [] scssVariant sassVariant 0
                  "a" eq_refl eq_refl (Nat.lt_succ_diag_r 1))).
Defined.

(** ** The split *)

(** *** The widths *)

Lemma ltb_of_Z (a b : Z) : ltb (of_Z a) (of_Z b) = (a <? b)%Z.
Proof.
  unfold ltb, of_Z, Qcompare, Z.ltb. simpl. now rewrite !Z.mul_1_r.
Qed.

Lemma truthy_of_nat (n : nat) : JsNumber.truthy (of_nat n) = negb (n =? 0)%nat.
Proof.
  unfold JsNumber.truthy, of_nat, of_Z, Qeq_bool. simpl.
  rewrite Z.mul_1_r. destruct n; reflexivity.
Qed.

Lemma add_of_nat (a b : nat) :
  add (of_nat a) (of_nat b) = of_Z (Z.of_nat a + Z.of_nat b).
Proof. unfold add, of_nat, of_Z. now rewrite inject_Z_plus. Qed.

Lemma max2_of_nat (a b : nat) :
  max2 (of_nat a) (of_nat b) = of_nat (Nat.max a b).
Proof.
  unfold max2, of_nat. cbn match. fold (of_Z (Z.of_nat a)) (of_Z (Z.of_nat b)).
  rewrite ltb_of_Z. destruct (Z.ltb_spec (Z.of_nat a) (Z.of_nat b)).
  - now rewrite Nat.max_r by lia.
  - now rewrite Nat.max_l by lia.
Qed.

Lemma fold_max2_of_nat (l : list nat) :
  forall a, fold_left max2 (map of_nat l) (of_nat a)
            = of_nat (Nat.max a (list_max l)).
Proof.
  induction l as [|b l IH]; intros a.
  - simpl. now rewrite Nat.max_0_r.
  - cbn [map fold_left]. rewrite max2_of_nat, IH.
    change (list_max (b :: l)) with (Nat.max b (list_max l)).
    now rewrite Nat.max_assoc.
Qed.

(** The largest of no number is [-Infinity]; the largest of some lengths is
    their maximum. *)
Lemma Math_max_of_nat (l : list nat) :
  Math_max (map of_nat l)
  = match l with
    | [] => NegInfinity
    | _ :: _ => of_nat (list_max l)
    end.
Proof.
  destruct l as [|a l]; [reflexivity|].
  unfold Math_max. cbn [map fold_left].
  change (max2 NegInfinity (of_nat a)) with (of_nat a).
  apply fold_max2_of_nat.
Qed.

Lemma lineLengths_widths (sections : list string) :
  flat_map lineLengths sections = map of_nat (widths sections).
Proof.
  unfold widths, lineLengths.
  induction sections as [|source sections IH]; simpl; [reflexivity|].
  now rewrite map_app, map_map, IH.
Qed.

Lemma widths_nonempty (sections : list string) :
  sections <> [] -> widths sections <> [].
Proof.
  destruct sections as [|source sections]; [congruence|]. intros _.
  unfold widths, split. simpl.
  destruct (split_from_first LF source 0 "") as (first & rest & ->).
  discriminate.
Qed.

Lemma Math_max_widths (sections : list string) :
  Math_max (flat_map lineLengths sections)
  = match sections with
    | [] => NegInfinity
    | _ :: _ => of_nat (maxWidth sections)
    end.
Proof.
  rewrite lineLengths_widths, Math_max_of_nat. unfold maxWidth.
  destruct sections as [|source sections]; [reflexivity|].
  pose proof (widths_nonempty (source :: sections)) as H.
  destruct (widths (source :: sections)) as [|a l];
    [now elim H | reflexivity].
Qed.

(** Without CSS section every example is reported as one that can be
    split: the largest of no width is [-Infinity]. *)
Lemma canSplit_without_css (scssExamples sassExamples : list string) :
  let w := getCanSplit scssExamples sassExamples [] in
  maxCSSWidth w = NegInfinity /\ canSplit w = true.
Proof.
  unfold getCanSplit. cbn [maxCSSWidth canSplit flat_map].
  split; [reflexivity|].
  rewrite Math_max_widths.
  destruct (scssExamples ++ sassExamples); reflexivity.
Qed.

(** With a CSS section, an example can be split exactly when the largest
    CSS width is not zero and is less than 110 together with the largest
    source width. *)
Lemma canSplit_with_css (scssExamples sassExamples cssExamples : list string) :
  scssExamples ++ sassExamples <> [] ->
  cssExamples <> [] ->
  let w := getCanSplit scssExamples sassExamples cssExamples in
  maxSourceWidth w = of_nat (maxWidth (scssExamples ++ sassExamples))
  /\ maxCSSWidth w = of_nat (maxWidth cssExamples)
  /\ (canSplit w = true
      <-> maxWidth cssExamples <> 0%nat
          /\ (maxWidth (scssExamples ++ sassExamples) + maxWidth cssExamples
              < 110)%nat).
Proof.
  intros Hsource Hcss. unfold getCanSplit.
  cbn [maxSourceWidth maxCSSWidth canSplit].
  rewrite !Math_max_widths.
  destruct (scssExamples ++ sassExamples) as [|source sources] eqn:E;
    [now elim Hsource|].
  destruct cssExamples as [|css csss]; [now elim Hcss|].
  split; [reflexivity|]. split; [reflexivity|].
  rewrite truthy_of_nat, add_of_nat, ltb_of_Z.
  rewrite andb_true_iff, negb_true_iff, Nat.eqb_neq, Z.ltb_lt.
  lia.
Qed.

(** The location of the split of an example that can be split, of largest
    widths [s] and [c]. *)
Lemma getSplitLocation_of_widths (w : SplitWidths) (s c : nat) :
  canSplit w = true ->
  maxSourceWidth w = of_nat s ->
  maxCSSWidth w = of_nat c ->
  same_opt (getSplitLocation w)
    (Some (Finite
             (if (s <? 55)%nat && (c <? 55)%nat then 50
              else (1 # 2)
                   + (inject_Z (Z.of_nat s) - inject_Z (Z.of_nat c))
                     / 110 / 2 * 100)%Q)).
Proof.
  intros Hsplit Hs Hc. unfold getSplitLocation. rewrite Hsplit, Hs, Hc.
  unfold of_nat at 1 2. rewrite !ltb_of_Z.
  replace (Z.of_nat s <? 55)%Z with (s <? 55)%nat
    by (destruct (Nat.ltb_spec s 55), (Z.ltb_spec (Z.of_nat s) 55); lia).
  replace (Z.of_nat c <? 55)%Z with (c <? 55)%nat
    by (destruct (Nat.ltb_spec c 55), (Z.ltb_spec (Z.of_nat c) 55); lia).
  destruct ((s <? 55)%nat && (c <? 55)%nat); simpl.
  - reflexivity.
  - reflexivity.
Qed.

(** The render at the failing input of C1: the sum of the widths 10 and 90
    is under 110, so the example can be split, and the CSS is wider than
    55; the location is [0.5 + ((10 - 90) / 110 / 2) * 100], about -35.86,
    where C1 has [50 + ((10 - 90) / 110 / 2) * 100], about 13.64. *)
Theorem C1_code_at_failing_input :
  exists code,
    render echo narrowAndWide false (Some scss_only) = ([], Returns code)
    /\ maxSourceWidth (getCanSplit (Code.scss code) (Code.sass code)
                         (Code.css code)) = of_nat 10
    /\ maxCSSWidth (getCanSplit (Code.scss code) (Code.sass code)
                      (Code.css code)) = of_nat 90
    /\ Code.canSplit code = true
    /\ same_opt (Code.splitLocation code) (Some (Finite (-789 # 22)))
    /\ ~ same_opt (Code.splitLocation code) (Some (Finite (150 # 11)))
    /\ (forall location, Code.splitLocation code = Some location ->
                         ~ within 0 100 location).
Proof.
  eexists. split; [vm_compute; reflexivity|].
  split; [reflexivity|]. split; [reflexivity|]. split; [reflexivity|].
  split; [vm_compute; reflexivity|].
  split; [vm_compute; discriminate|].
  intros location H. injection H as <-. vm_compute.
  intros [H _]. now apply H.
Qed.

(** The render at the failing input of C2, the first example: there
    is no CSS section, the maximum of no CSS width is [-Infinity], which is
    truthy and makes the sum of the widths less than 110; the example is
    reported as one that can be split, at 50. *)
Theorem C2_code_at_failing_input :
  exists code,
    render echo example1 false None = ([], Returns code)
    /\ Code.css code = []
    /\ maxCSSWidth (getCanSplit (Code.scss code) (Code.sass code)
                      (Code.css code)) = NegInfinity
    /\ Code.canSplit code = true
    /\ same_opt (Code.splitLocation code) (Some (of_Z 50)).
Proof.
  exists example1Code.
  split; [reflexivity|]. split; [reflexivity|]. split; [reflexivity|].
  split; [reflexivity|]. vm_compute. reflexivity.
Qed.

(** ** The blocks of an example *)

Lemma variantSeparator_nonempty : variantSeparator <> ""%string.
Proof. discriminate. Qed.

Lemma split_absent (sep s : string) :
  ~ occursIn sep s -> split sep s = [s].
Proof.
  intros H. apply not_contains_spec in H.
  exact (split_from_absent sep s "" H).
Qed.

Lemma falsy_spec (o : option string) :
  JsString.truthy o = false <-> o = None \/ o = Some ""%string.
Proof.
  destruct o as [[|c s]|]; simpl; split; intros H; auto; try discriminate.
  - destruct H; discriminate.
Qed.

(** What [resolveCss] throws. *)
Lemma resolveCss_throws (compileString : Compiler) (autogenCSS : bool)
  (syntax : option Syntax) (scssContents cssContents : option string)
  (scssExamples sassExamples : list string) (calls calls' : list Call)
  (e : Exception) :
  resolveCss compileString autogenCSS syntax scssContents cssContents
    scssExamples sassExamples calls = (calls', Throws e) ->
  e = CannotAutoGenerateError cantAutoGenerate \/ e = CompilerException.
Proof.
  unfold resolveCss.
  destruct (negb (JsString.truthy cssContents) && autogenCSS);
    [|discriminate].
  destruct (autogenSections scssContents scssExamples sassExamples)
    as [|source [|second rest]]; unfold throw, bind, compile, ret.
  - intros H. injection H as _ <-. now left.
  - destruct (compileString source _); [discriminate|].
    intros H. injection H as _ <-. now right.
  - intros H. injection H as _ <-. now left.
Qed.

(** A render throws the exception of a malformed input exactly when the
    [switch] on the syntax does. *)
Lemma render_malformed (compileString : Compiler) (contents : string)
  (autogenCSS : bool) (syntax : option Syntax) (message : string) :
  snd (render compileString contents autogenCSS syntax)
  = Throws (MalformedInputError message)
  <-> snd (selectContents contents syntax [])
      = Throws (MalformedInputError message).
Proof.
  unfold render, generateCodeExample, bind.
  destruct (selectContents contents syntax []) as [calls1 [[[a b] c]|e]];
    [|simpl; split; intros H; injection H as ->; reflexivity].
  destruct (resolveCss compileString autogenCSS syntax a c (examplesOf a)
              (examplesOf b) calls1) as [calls2 [generated|e]] eqn:E; simpl.
  - split; discriminate.
  - destruct (resolveCss_throws _ _ _ _ _ _ _ _ _ _ E) as [-> | ->];
      split; discriminate.
Qed.

(** C7, as stated, fails on an input of both syntaxes with a [===]
    separator and nothing after it: the separator is there, and the
    exception of a malformed input is thrown. *)
Lemma C7_counterexample :
  occursIn variantSeparator emptySecondBlock
  /\ render echo emptySecondBlock false None
     = ([], Throws (MalformedInputError (couldntFind emptySecondBlock))).
Proof.
  split; [|reflexivity].
  exists "a"%string, ""%string. reflexivity.
Qed.

(** C7, amended: a render throws the exception of a malformed input if and
    only if no single syntax is selected and the block of the second syntax
    is absent (the input has no [===] separator) or empty (nothing stands
    between the first separator and the next one or the end of the input).
    With a single syntax selected and without generated CSS, an input
    without [===] separator is rendered without exception and without a
    call of the compiler: the sections of the selected syntax are the
    trimmed pieces of the input between its [---] separators, and there is
    no CSS section. *)
Theorem C7_malformed_input (compileString : Compiler) (contents : string)
  (autogenCSS : bool) (syntax : option Syntax) :
  ((exists message,
       snd (render compileString contents autogenCSS syntax)
       = Throws (MalformedInputError message))
   <-> syntax = None
       /\ (~ occursIn variantSeparator contents
           \/ nth_error (split variantSeparator contents) 1 = Some ""%string))
  /\ (forall selected,
        syntax = Some selected ->
        autogenCSS = false ->
        ~ occursIn variantSeparator contents ->
        exists code,
          render compileString contents autogenCSS syntax
          = ([], Returns code)
          /\ selectedSections selected code
             = map trim (split sectionSeparator contents)
          /\ Code.css code = []).
Proof.
  split.
  - rewrite <- (split_second_absent _ contents variantSeparator_nonempty).
    rewrite <- falsy_spec.
    split.
    + intros [message H]. apply render_malformed in H.
      unfold selectContents in H. destruct syntax as [[|]|]; try discriminate.
      split; [reflexivity|].
      destruct (JsString.truthy (nth_error (split variantSeparator contents) 1));
        [discriminate | reflexivity].
    + intros [-> H]. exists (couldntFind contents).
      apply render_malformed. unfold selectContents. now rewrite H.
  - intros selected -> -> Habsent.
    unfold render, generateCodeExample, bind, selectContents.
    rewrite (split_absent _ _ Habsent).
    destruct selected; simpl; eexists; (split; [reflexivity|]);
      split; reflexivity.
Qed.

Lemma C7_malformed_input_witness :
  exists code,
    render echo twoSections false (Some scss_only) = ([], Returns code)
    /\ selectedSections scss_only code = ["a"; "b"]
    /\ Code.css code = [].
Proof.
  assert (Habsent : ~ occursIn variantSeparator twoSections).
  { apply not_contains_spec. reflexivity. }
  exact (proj2 (C7_malformed_input echo twoSections false (Some scss_only))
           scss_only eq_refl eq_refl Habsent).
Defined.

(** ** The generated CSS *)

Lemma examplesOf_falsy (o : option string) :
  JsString.truthy o = false -> (List.length (examplesOf o) <= 1)%nat.
Proof.
  intros H. apply falsy_spec in H as [-> | ->]; simpl; lia.
Qed.

(** A source block that is not empty is the block the CSS is generated
    from. *)
Lemma autogenSections_source (contents : string) (syntax : option Syntax)
  (calls calls' : list Call) (scssContents sassContents cssContents : option string) :
  selectContents contents syntax calls
  = (calls', Returns (scssContents, sassContents, cssContents)) ->
  JsString.truthy (sourceContents syntax scssContents sassContents) = true ->
  autogenSections scssContents (examplesOf scssContents)
    (examplesOf sassContents)
  = examplesOf (sourceContents syntax scssContents sassContents).
Proof.
  unfold selectContents, autogenSections, sourceContents, ret.
  destruct syntax as [[|]|].
  - intros _ ->. reflexivity.
  - intros H _. injection H as _ <- _ _. reflexivity.
  - intros _ ->. reflexivity.
Qed.

(** C8: when the blocks of the input are found, the CSS is to be generated
    (it is asked for and no CSS block is given) and the source block has
    more than one section, the render throws the exception of a CSS that
    cannot be generated, and its log of calls of the compiler is empty. *)
Theorem C8_cannot_auto_generate (compileString : Compiler)
  (contents : string) (syntax : option Syntax)
  (scssContents sassContents cssContents : option string) :
  selectContents contents syntax []
  = ([], Returns (scssContents, sassContents, cssContents)) ->
  JsString.truthy cssContents = false ->
  (1 < List.length
         (examplesOf (sourceContents syntax scssContents sassContents)))%nat ->
  render compileString contents true syntax
  = ([], Throws (CannotAutoGenerateError cantAutoGenerate)).
Proof.
  intros Hselect Hcss Hmany.
  assert (Hsource : JsString.truthy
                      (sourceContents syntax scssContents sassContents) = true).
  { destruct (JsString.truthy
                (sourceContents syntax scssContents sassContents)) eqn:E;
      [reflexivity|].
    apply examplesOf_falsy in E. lia. }
  pose proof (autogenSections_source _ _ _ _ _ _ _ Hselect Hsource) as Hsections.
  unfold render, generateCodeExample, bind. rewrite Hselect.
  unfold resolveCss. rewrite Hcss, Hsections. simpl.
  destruct (examplesOf (sourceContents syntax scssContents sassContents))
    as [|first [|second rest]]; simpl in Hmany; try lia.
  reflexivity.
Qed.

Lemma C8_cannot_auto_generate_witness :
  render echo twoSections true (Some scss_only)
  = ([], Throws (CannotAutoGenerateError cantAutoGenerate)).
Proof.
  apply (C8_cannot_auto_generate echo twoSections (Some scss_only)
           (Some twoSections) None None).
  - reflexivity.
  - reflexivity.
  - apply Nat.lt_succ_diag_r.
Defined.

(** C9, as stated, fails with a compiler whose CSS holds a line [---]: the
    CSS generated from the one section [".a{color:red}"] makes two
    sections. *)
Lemma C9_counterexample :
  exists code,
    render ruled ".a{color:red}" true (Some scss_only)
    = ([(".a{color:red}"%string, scss_syntax)], Returns code)
    /\ Code.scss code = [".a{color:red}"%string]
    /\ ruled ".a{color:red}"%string scss_syntax
       = Some ("x" ++ LF ++ "---" ++ LF ++ "y")%string
    /\ Code.css code = ["x"%string; "y"%string].
Proof.
  eexists. split; [vm_compute; reflexivity|].
  split; [reflexivity|]. split; reflexivity.
Qed.

(** C9, amended: when the blocks of the input are found, the CSS is to be
    generated (it is asked for and no CSS block is given), and the source
    block is not empty and has exactly one section, the compiler is called
    exactly once, with the text of that section and with its syntax
    ([indented] for Sass, [scss_syntax] for SCSS).  The text it returns is
    taken as the CSS block: the CSS sections are its trimmed pieces between
    [---] separators, so exactly one section, the trimmed text, when it has
    no such separator.  When the compiler throws, so does the render. *)
Theorem C9_auto_generate (compileString : Compiler) (contents : string)
  (syntax : option Syntax)
  (scssContents sassContents cssContents : option string) (source : string) :
  selectContents contents syntax []
  = ([], Returns (scssContents, sassContents, cssContents)) ->
  JsString.truthy cssContents = false ->
  JsString.truthy (sourceContents syntax scssContents sassContents) = true ->
  examplesOf (sourceContents syntax scssContents sassContents) = [source] ->
  let run := render compileString contents true syntax in
  fst run = [(source, declaredSyntax syntax)]
  /\ (forall generated,
        compileString source (declaredSyntax syntax) = Some generated ->
        exists code,
          snd run = Returns code
          /\ Code.css code = map trim (split sectionSeparator generated)
          /\ (~ occursIn sectionSeparator generated ->
              Code.css code = [trim generated]))
  /\ (compileString source (declaredSyntax syntax) = None ->
      snd run = Throws CompilerException).
Proof.
  intros Hselect Hcss Hsource Hone run.
  pose proof (autogenSections_source _ _ _ _ _ _ _ Hselect Hsource) as Hsections.
  rewrite Hone in Hsections.
  unfold run, render, generateCodeExample, bind. rewrite Hselect.
  unfold resolveCss. rewrite Hcss, Hsections. simpl.
  unfold bind, compile. fold (declaredSyntax syntax).
  destruct (compileString source (declaredSyntax syntax)) as [generated|];
    simpl.
  - split; [reflexivity|]. split; [|discriminate].
    intros generated' H. injection H as <-.
    eexists. split; [reflexivity|]. simpl. split; [reflexivity|].
    intros Habsent. now rewrite (split_absent _ _ Habsent).
  - split; [reflexivity|]. split; [discriminate | reflexivity].
Qed.

Lemma C9_auto_generate_witness :
  fst (render echo ".a{color:red}" true (Some scss_only))
  = [(".a{color:red}"%string, scss_syntax)]
  /\ exists code,
       snd (render echo ".a{color:red}" true (Some scss_only)) = Returns code
       /\ Code.css code = ["{.a{color:red}}"%string].
Proof.
  pose proof (C9_auto_generate echo ".a{color:red}" (Some scss_only)
                (Some ".a{color:red}"%string) None None ".a{color:red}"
                eq_refl eq_refl eq_refl eq_refl) as (Hcalls & Hreturns & _).
  split; [exact Hcalls|].
  destruct (Hreturns "{.a{color:red}}"%string eq_refl) as (code & Hcode & Hcss & _).
  exists code. split; [exact Hcode | exact Hcss].
Defined.

(** ** Separator lines at the ends *)

(** C10: the separators are the infixes ["\n===\n"] and ["\n---\n"].  A text
    whose first line is [===] has a first block that starts with that line,
    and a text whose last line is [===] has a last block that ends with it;
    the same holds of [---] and the pieces of a block.  In particular the
    input of first line [===] below has the blocks ["===\na"] and ["b"], and
    they are its SCSS and its Sass section. *)
Theorem C10_separators_are_infixes :
  variantSeparator = String "010" ("===" ++ LF)
  /\ sectionSeparator = String "010" ("---" ++ LF)
  /\ (forall s, exists first rest,
         split variantSeparator ("===" ++ LF ++ s)
         = ("===" ++ first)%string :: rest)
  /\ (forall s, exists front last,
         split variantSeparator (s ++ LF ++ "===")
         = front ++ [(last ++ "===")%string])
  /\ (forall s, exists first rest,
         split sectionSeparator ("---" ++ LF ++ s)
         = ("---" ++ first)%string :: rest)
  /\ (forall s, exists front last,
         split sectionSeparator (s ++ LF ++ "---")
         = front ++ [(last ++ "---")%string])
  /\ split variantSeparator leadingSeparator
     = [("===" ++ LF ++ "a")%string; "b"%string]
  /\ exists code,
       render echo leadingSeparator false None = ([], Returns code)
       /\ Code.scss code = [("===" ++ LF ++ "a")%string]
       /\ Code.sass code = ["b"%string].
Proof.
  split; [reflexivity|]. split; [reflexivity|].
  split; [|split; [|split; [|split; [|split]]]].
  - intros s.
    exact (word_at_start "010" "===" "===" eq_refl (LF ++ s)).
  - intros s.
    destruct (word_at_end "010" "===" "===" eq_refl (s ++ LF))
      as (front & last & H).
    exists front, last. rewrite <- H, append_assoc. reflexivity.
  - intros s.
    exact (word_at_start "010" "---" "---" eq_refl (LF ++ s)).
  - intros s.
    destruct (word_at_end "010" "---" "---" eq_refl (s ++ LF))
      as (front & last & H).
    exists front, last. rewrite <- H, append_assoc. reflexivity.
  - reflexivity.
  - eexists. split; [vm_compute; reflexivity|]. split; reflexivity.
Qed.

(** * Further properties of the code *)

(** ** Paddings: signs, alignment, symmetry *)

Lemma getPadding_nonneg (isLastSection : bool)
  (sectionsA sectionsB : list string) (lines maxLines : Z) :
  (0 <= getPadding isLastSection sectionsA sectionsB lines maxLines)%Z.
Proof. unfold getPadding. lia. Qed.

(** Every entry of every padding table is non-negative. *)
Theorem paddings_nonnegative (scss sass css : list string) (v : Variant) :
  Forall (fun padding => (0 <= padding)%Z)
    (paddingsOf v (getPaddings scss sass css)).
Proof.
  destruct (getPaddings_map scss sass css) as (H1 & H2 & H3).
  destruct v; simpl; rewrite ?H1, ?H2, ?H3; apply Forall_forall;
    intros padding Hin; apply in_map_iff in Hin as (i & <- & _);
    unfold paddingsAt; simpl; apply getPadding_nonneg.
Qed.

(** The largest line count at index [i] among the variants that are not at
    their last section, as [getPaddings] computes it. *)
Lemma interior_padding (v : Variant) (scss sass css : list string) (i : nat) :
  (i < maxSections scss sass css)%nat ->
  isLastIndex i (sectionsOf v scss sass css) = false ->
  (nth i (paddingsOf v (getPaddings scss sass css)) 0
   + lineCount (nth_error (sectionsOf v scss sass css) i)
   = Z.max (if isLastIndex i scss then 0 else lineCount (nth_error scss i))
       (Z.max (if isLastIndex i sass then 0 else lineCount (nth_error sass i))
          (if isLastIndex i css then 0 else lineCount (nth_error css i))))%Z.
Proof.
  intros Hi Hlast. rewrite (paddingsOf_at v scss sass css i Hi), Hlast.
  unfold getPadding.
  destruct v; simpl in *; rewrite Hlast;
    match goal with
    | |- context [(?a >? ?b)%Z] => destruct (Z.gtb_spec a b)
    end; lia.
Qed.

(** Sections that are not the last of their variant line up: at an index
    where two variants are both before or after their last section, the
    lines of the section plus its padding are the same for both (a variant
    without section at that index counts with one line). *)
Theorem interior_sections_align (scss sass css : list string)
  (v w : Variant) (i : nat) :
  (i < maxSections scss sass css)%nat ->
  isLastIndex i (sectionsOf v scss sass css) = false ->
  isLastIndex i (sectionsOf w scss sass css) = false ->
  (nth i (paddingsOf v (getPaddings scss sass css)) 0
   + lineCount (nth_error (sectionsOf v scss sass css) i)
   = nth i (paddingsOf w (getPaddings scss sass css)) 0
     + lineCount (nth_error (sectionsOf w scss sass css) i))%Z.
Proof.
  intros Hi Hv Hw.
  now rewrite (interior_padding v scss sass css i Hi Hv),
    (interior_padding w scss sass css i Hi Hw).
Qed.

Lemma interior_sections_align_witness :
  (nth 0 (scssPaddings
            (getPaddings ["a"; "b"] [("a" ++ LF ++ "b")%string; "c"] [])) 0
   + lineCount (Some "a")
   = nth 0 (sassPaddings
              (getPaddings ["a"; "b"] [("a" ++ LF ++ "b")%string; "c"] [])) 0
     + lineCount (Some ("a" ++ LF ++ "b")%string))%Z.
Proof.
  exact (interior_sections_align ["a"; "b"]
           [("a" ++ LF ++ "b")%string; "c"] [] scssVariant sassVariant 0
           (Nat.lt_0_succ 1) eq_refl eq_refl).
Defined.

Lemma remainingHeight_beyond (sectionsA sectionsB : list string) (i : nat) :
  (Nat.max (List.length sectionsA) (List.length sectionsB) <= i)%nat ->
  remainingHeight sectionsA sectionsB i = 0%Z.
Proof.
  intros H. unfold remainingHeight.
  replace (Nat.max (List.length sectionsA) (List.length sectionsB) - i)%nat
    with 0%nat by lia.
  reflexivity.
Qed.

Lemma lineCount_beyond (sections : list string) (i : nat) :
  (List.length sections <= i)%nat -> lineCount (nth_error sections i) = 1%Z.
Proof.
  intros H. apply nth_error_None in H. now rewrite H.
Qed.

Lemma last_section_padding (scss sass css : list string) (v : Variant)
  (i : nat) :
  List.length (sectionsOf v scss sass css) = S i ->
  (List.length (comparisonA v scss sass css) <= S i)%nat ->
  (List.length (comparisonB v scss sass css) <= S i)%nat ->
  let padding := nth i (paddingsOf v (getPaddings scss sass css)) 0%Z in
  (padding + lineCount (nth_error (sectionsOf v scss sass css) i)
   = Z.max (lineCount (nth_error scss i))
       (Z.max (lineCount (nth_error sass i)) (lineCount (nth_error css i))))%Z
  /\ ((List.length (comparisonA v scss sass css) <= i)%nat ->
      (List.length (comparisonB v scss sass css) <= i)%nat ->
      padding = 0%Z).
Proof.
  intros Hv HA HB padding.
  assert (Hmax : (i < maxSections scss sass css)%nat).
  { unfold maxSections. destruct v; simpl in Hv; lia. }
  assert (Hlast : isLastIndex i (sectionsOf v scss sass css) = true).
  { unfold isLastIndex. rewrite Hv. apply Z.eqb_eq. lia. }
  assert (Heq : (padding + lineCount (nth_error (sectionsOf v scss sass css) i)
                 = Z.max (remainingHeight (comparisonA v scss sass css)
                            (comparisonB v scss sass css) i - 2)
                     (lineCount (nth_error (sectionsOf v scss sass css) i)))%Z).
  { unfold padding. rewrite (paddingsOf_at v scss sass css i Hmax), Hlast.
    apply last_padding_height. }
  pose proof (lineCount_positive (nth_error (sectionsOf v scss sass css) i))
    as Hpos.
  assert (Hheight :
            (remainingHeight (comparisonA v scss sass css)
               (comparisonB v scss sass css) i - 2
             <= Z.max (lineCount (nth_error (comparisonA v scss sass css) i))
                  (lineCount (nth_error (comparisonB v scss sass css) i))
             /\ ((i < Nat.max (List.length (comparisonA v scss sass css))
                        (List.length (comparisonB v scss sass css)))%nat ->
                 remainingHeight (comparisonA v scss sass css)
                   (comparisonB v scss sass css) i - 2
                 = Z.max (lineCount (nth_error (comparisonA v scss sass css) i))
                     (lineCount (nth_error (comparisonB v scss sass css) i))))%Z).
  { destruct (Nat.lt_ge_cases i
                (Nat.max (List.length (comparisonA v scss sass css))
                   (List.length (comparisonB v scss sass css)))) as [Hlt | Hge].
    - rewrite (remainingHeight_step _ _ i Hlt),
        (remainingHeight_beyond _ _ (S i)) by lia.
      split; [lia | intros _; lia].
    - rewrite (remainingHeight_beyond _ _ i Hge).
      pose proof (lineCount_positive
                    (nth_error (comparisonA v scss sass css) i)).
      split; [lia | intros Hlt; lia]. }
  destruct Hheight as [Hle Hexact].
  split.
  - rewrite Heq.
    destruct (Nat.lt_ge_cases i
                (Nat.max (List.length (comparisonA v scss sass css))
                   (List.length (comparisonB v scss sass css)))) as [Hlt | Hge].
    + rewrite (Hexact Hlt). destruct v; simpl; lia.
    + rewrite (remainingHeight_beyond _ _ i Hge).
      pose proof (lineCount_beyond (comparisonA v scss sass css) i) as HlA.
      pose proof (lineCount_beyond (comparisonB v scss sass css) i) as HlB.
      destruct v; simpl in *; rewrite HlA, HlB by lia; lia.
  - intros HA' HB'.
    rewrite (remainingHeight_beyond _ _ i) in Heq by lia. lia.
Qed.

(** The last section of a variant that no other variant outnumbers is
    padded up to the tallest of the three sections of its index; it gets no
    padding when the other variants have no section at that index. *)
Theorem last_section_aligns (scss sass css : list string) (v : Variant)
  (i : nat) :
  List.length (sectionsOf v scss sass css) = S i ->
  (List.length (comparisonA v scss sass css) <= S i)%nat ->
  (List.length (comparisonB v scss sass css) <= S i)%nat ->
  let padding := nth i (paddingsOf v (getPaddings scss sass css)) 0%Z in
  (padding + lineCount (nth_error (sectionsOf v scss sass css) i)
   = Z.max (lineCount (nth_error scss i))
       (Z.max (lineCount (nth_error sass i)) (lineCount (nth_error css i))))%Z
  /\ ((List.length (comparisonA v scss sass css) <= i)%nat ->
      (List.length (comparisonB v scss sass css) <= i)%nat ->
      padding = 0%Z).
Proof. apply last_section_padding. Qed.

Lemma last_section_aligns_witness :
  (nth 0 (scssPaddings (getPaddings ["a"] [("a" ++ LF ++ "b")%string] [])) 0
   + lineCount (Some "a")
   = 2)%Z.
Proof.
  exact (proj1 (last_section_aligns ["a"] [("a" ++ LF ++ "b")%string] []
                  scssVariant 0 eq_refl (le_n 1) (Nat.le_0_l 1))).
Defined.

Lemma isLastIndex_spec (i : nat) (examples : list string) :
  isLastIndex i examples = true <-> List.length examples = S i.
Proof. unfold isLastIndex. rewrite Z.eqb_eq. lia. Qed.

Lemma isLastIndex_false (i : nat) (examples : list string) :
  List.length examples <> S i -> isLastIndex i examples = false.
Proof.
  intros H. destruct (isLastIndex i examples) eqn:E; [|reflexivity].
  apply isLastIndex_spec in E. contradiction.
Qed.

(** When the three variants have the same number of sections, the sections
    of every index line up: lines plus padding is, for each variant, the
    largest of the three line counts of that index. *)
Theorem equal_counts_align (scss sass css : list string) (n i : nat)
  (v : Variant) :
  List.length scss = n ->
  List.length sass = n ->
  List.length css = n ->
  (i < n)%nat ->
  (nth i (paddingsOf v (getPaddings scss sass css)) 0
   + lineCount (nth_error (sectionsOf v scss sass css) i)
   = Z.max (lineCount (nth_error scss i))
       (Z.max (lineCount (nth_error sass i)) (lineCount (nth_error css i))))%Z.
Proof.
  intros Hscss Hsass Hcss Hi.
  destruct (Nat.eq_dec n (S i)) as [Hlast | Hinner].
  - apply (last_section_padding scss sass css v i); destruct v; simpl; lia.
  - assert (Hmax : (i < maxSections scss sass css)%nat)
      by (unfold maxSections; lia).
    rewrite (interior_padding v scss sass css i Hmax)
      by (apply isLastIndex_false; destruct v; simpl; lia).
    now rewrite !isLastIndex_false by lia.
Qed.

Lemma equal_counts_align_witness :
  (nth 0 (cssPaddings
            (getPaddings ["a"] [("a" ++ LF ++ "b")%string] ["c"])) 0
   + lineCount (Some "c")
   = 2)%Z.
Proof.
  exact (equal_counts_align ["a"] [("a" ++ LF ++ "b")%string] ["c"] 1 0
           cssVariant eq_refl eq_refl eq_refl (Nat.lt_0_succ 0)).
Defined.

(** *** The total padding *)

Lemma remainingHeight_sym (sectionsA sectionsB : list string) (i : nat) :
  remainingHeight sectionsA sectionsB i = remainingHeight sectionsB sectionsA i.
Proof.
  unfold remainingHeight. rewrite Nat.max_comm. f_equal.
  apply map_ext. intros j. now rewrite Z.max_comm.
Qed.

Lemma getTotalPadding_cons (a b : string) (sectionsA sectionsB : list string) :
  getTotalPadding (a :: sectionsA) (b :: sectionsB)
  = (Z.max (lineCount (Some a)) (lineCount (Some b)) + 2
     + getTotalPadding sectionsA sectionsB)%Z.
Proof.
  rewrite getTotalPadding_height, (remainingHeight_step _ _ 0)
    by (simpl; lia).
  now rewrite <- (getTotalPadding_skipn (a :: sectionsA) (b :: sectionsB) 1).
Qed.

(** The total padding does not depend on the order of its two lists, it is
    at least three lines for every index of the longer list, and it is
    zero for two empty lists only. *)
Theorem getTotalPadding_symmetric_bounded (sections1 sections2 : list string) :
  getTotalPadding sections1 sections2 = getTotalPadding sections2 sections1
  /\ (3 * Z.of_nat (Nat.max (List.length sections1) (List.length sections2))
      <= getTotalPadding sections1 sections2)%Z
  /\ (getTotalPadding sections1 sections2 = 0%Z
      <-> sections1 = [] /\ sections2 = []).
Proof.
  assert (Hbound :
            (3 * Z.of_nat (Nat.max (List.length sections1)
                             (List.length sections2))
             <= getTotalPadding sections1 sections2)%Z).
  { rewrite getTotalPadding_height. unfold remainingHeight.
    rewrite Nat.sub_0_r.
    generalize (Nat.max (List.length sections1) (List.length sections2)) as n.
    generalize 0%nat as start.
    intros start n. revert start.
    induction n as [|n IH]; intros start.
    - simpl. lia.
    - cbn [seq map fold_right]. specialize (IH (S start)).
      pose proof (lineCount_positive (nth_error sections1 start)). lia. }
  split; [|split].
  - rewrite !getTotalPadding_height. apply remainingHeight_sym.
  - exact Hbound.
  - split.
    + intros H. rewrite H in Hbound.
      destruct sections1, sections2; simpl in Hbound; try lia. now split.
    + intros [-> ->]. reflexivity.
Qed.

(** The total padding of two lists that continue two lists of the same
    length is the sum of the total paddings of the two parts. *)
Theorem getTotalPadding_app (front1 front2 back1 back2 : list string) :
  List.length front1 = List.length front2 ->
  getTotalPadding (front1 ++ back1) (front2 ++ back2)
  = (getTotalPadding front1 front2 + getTotalPadding back1 back2)%Z.
Proof.
  revert front2. induction front1 as [|a front1 IH]; intros [|b front2] Hlen;
    simpl in Hlen; try discriminate.
  - reflexivity.
  - simpl app.
    rewrite !getTotalPadding_cons, IH by lia. lia.
Qed.

Lemma getTotalPadding_app_witness :
  getTotalPadding (["a"] ++ ["b"; "c"]) (["d"] ++ [])
  = (getTotalPadding ["a"] ["d"] + getTotalPadding ["b"; "c"] [])%Z.
Proof. exact (getTotalPadding_app ["a"] ["d"] ["b"; "c"] [] eq_refl). Defined.

(** *** The order of the two syntaxes *)

Lemma getTotalPadding_sym (sections1 sections2 : list string) :
  getTotalPadding sections1 sections2 = getTotalPadding sections2 sections1.
Proof. rewrite !getTotalPadding_height. apply remainingHeight_sym. Qed.

(** Exchanging the SCSS and the Sass sections exchanges their padding
    tables and keeps the CSS padding table. *)
Theorem getPaddings_swap (scss sass css : list string) :
  scssPaddings (getPaddings sass scss css)
  = sassPaddings (getPaddings scss sass css)
  /\ sassPaddings (getPaddings sass scss css)
     = scssPaddings (getPaddings scss sass css)
  /\ cssPaddings (getPaddings sass scss css)
     = cssPaddings (getPaddings scss sass css).
Proof.
  destruct (getPaddings_map scss sass css) as (-> & -> & ->).
  destruct (getPaddings_map sass scss css) as (-> & -> & ->).
  replace (Nat.max (List.length sass)
             (Nat.max (List.length scss) (List.length css)))
    with (Nat.max (List.length scss)
            (Nat.max (List.length sass) (List.length css))) by lia.
  assert (Hmax : forall a b c : Z, Z.max a (Z.max b c) = Z.max b (Z.max a c))
    by (intros; lia).
  repeat split; apply map_ext; intros i; unfold paddingsAt; simpl;
    rewrite (Hmax (if isLastIndex i sass then _ else _)); try reflexivity.
  unfold getPadding. now rewrite (getTotalPadding_sym (skipn i sass)).
Qed.

(** ** Renders: calls of the compiler and exceptions *)

Lemma selectContents_calls (contents : string) (syntax : option Syntax)
  (calls : list Call) :
  fst (selectContents contents syntax calls) = calls.
Proof.
  unfold selectContents. destruct syntax as [[|]|]; try reflexivity.
  destruct (negb (JsString.truthy (nth_error (split variantSeparator contents) 1)));
    reflexivity.
Qed.

(** What [resolveCss] does to the log, with its result. *)
Lemma resolveCss_cases (compileString : Compiler) (autogenCSS : bool)
  (syntax : option Syntax) (scssContents cssContents : option string)
  (scssExamples sassExamples : list string) (calls : list Call) :
  let run := resolveCss compileString autogenCSS syntax scssContents
               cssContents scssExamples sassExamples calls in
  (run = (calls, Returns cssContents)
   /\ (JsString.truthy cssContents = true \/ autogenCSS = false))
  \/ (run = (calls, Throws (CannotAutoGenerateError cantAutoGenerate))
      /\ JsString.truthy cssContents = false /\ autogenCSS = true
      /\ List.length (autogenSections scssContents scssExamples sassExamples)
         <> 1%nat)
  \/ (exists source,
         autogenSections scssContents scssExamples sassExamples = [source]
         /\ JsString.truthy cssContents = false /\ autogenCSS = true
         /\ run = (calls ++ [(source, declaredSyntax syntax)],
                   match compileString source (declaredSyntax syntax) with
                   | Some generated => Returns (Some generated)
                   | None => Throws CompilerException
                   end)).
Proof.
  unfold resolveCss. cbn zeta.
  destruct (JsString.truthy cssContents) eqn:Ecss; simpl.
  - left. split; [reflexivity | now left].
  - destruct autogenCSS; simpl.
    + destruct (autogenSections scssContents scssExamples sassExamples)
        as [|source [|second rest]].
      * right. left. repeat split; try reflexivity. simpl. lia.
      * right. right. exists source. repeat split; try reflexivity.
        unfold bind, compile, ret. fold (declaredSyntax syntax).
        destruct (compileString source (declaredSyntax syntax)); reflexivity.
      * right. left. repeat split; try reflexivity. simpl. lia.
    + left. split; [reflexivity | now right].
Qed.

(** A render unfolded: the blocks, then the CSS, then the result. *)
Lemma render_unfold (compileString : Compiler) (contents : string)
  (autogenCSS : bool) (syntax : option Syntax) :
  render compileString contents autogenCSS syntax
  = match selectContents contents syntax [] with
    | (calls, Returns (scssContents, sassContents, cssContents)) =>
        match resolveCss compileString autogenCSS syntax scssContents
                cssContents (examplesOf scssContents)
                (examplesOf sassContents) calls with
        | (calls', Returns css) =>
            let scssExamples := examplesOf scssContents in
            let sassExamples := examplesOf sassContents in
            let cssExamples := examplesOf css in
            let paddings := getPaddings scssExamples sassExamples cssExamples in
            let widths := getCanSplit scssExamples sassExamples cssExamples in
            (calls',
             Returns
               {| Code.scss := scssExamples;
                  Code.sass := sassExamples;
                  Code.css := cssExamples;
                  Code.scssPaddings := scssPaddings paddings;
                  Code.sassPaddings := sassPaddings paddings;
                  Code.cssPaddings := cssPaddings paddings;
                  Code.canSplit := canSplit widths;
                  Code.splitLocation := getSplitLocation widths |})
        | (calls', Throws e) => (calls', Throws e)
        end
    | (calls, Throws e) => (calls, Throws e)
    end.
Proof.
  unfold render, generateCodeExample, bind.
  destruct (selectContents contents syntax []) as [calls [[[a b] c]|e]];
    [|reflexivity].
  destruct (resolveCss compileString autogenCSS syntax a c (examplesOf a)
              (examplesOf b) calls) as [calls' [css|e]]; reflexivity.
Qed.

Lemma render_calls_length (compileString : Compiler) (contents : string)
  (autogenCSS : bool) (syntax : option Syntax) :
  (List.length (fst (render compileString contents autogenCSS syntax)) <= 1)%nat.
Proof.
  rewrite render_unfold.
  pose proof (selectContents_calls contents syntax []) as Hcalls.
  destruct (selectContents contents syntax []) as [calls [[[a b] c]|e]];
    simpl in Hcalls; subst calls; [|simpl; lia].
  destruct (resolveCss_cases compileString autogenCSS syntax a c
              (examplesOf a) (examplesOf b) [])
    as [[-> _] | [[-> _] | (source & _ & _ & _ & ->)]]; simpl; try lia.
  destruct (compileString source (declaredSyntax syntax)); simpl; lia.
Qed.

(** In every render the compiler is called at most once, with the syntax
    selected ([indented] for Sass only), and not at all when the CSS is not
    to be generated.  A render that throws one of the two errors of
    [generateCodeExample] has not called the compiler; a render in which
    the compiler throws has called it once, and throws. *)
Theorem compiler_called_at_most_once (compileString : Compiler)
  (contents : string) (autogenCSS : bool) (syntax : option Syntax) :
  let run := render compileString contents autogenCSS syntax in
  (List.length (fst run) <= 1)%nat
  /\ (forall call, In call (fst run) -> snd call = declaredSyntax syntax)
  /\ (autogenCSS = false -> fst run = [])
  /\ (forall message,
        snd run = Throws (MalformedInputError message)
        \/ snd run = Throws (CannotAutoGenerateError message) ->
        fst run = [])
  /\ (snd run = Throws CompilerException <->
      exists source,
        fst run = [(source, declaredSyntax syntax)]
        /\ compileString source (declaredSyntax syntax) = None).
Proof.
  cbn zeta. rewrite render_unfold.
  pose proof (selectContents_calls contents syntax []) as Hcalls.
  destruct (selectContents contents syntax []) as [calls [[[a b] c]|e]] eqn:E;
    simpl in Hcalls; subst calls.
  - destruct (resolveCss_cases compileString autogenCSS syntax a c
                (examplesOf a) (examplesOf b) [])
      as [[-> H] | [[-> (H1 & H2 & H3)] | (source & Hs & H1 & H2 & ->)]];
      simpl.
    + repeat split; try lia; try contradiction; try discriminate.
      intros (source & H' & _). discriminate.
    + repeat split; try lia; try contradiction; try discriminate;
        try congruence.
      intros (source & H' & _). discriminate.
    + destruct (compileString source (declaredSyntax syntax)) eqn:Ec; simpl.
      * repeat split; try lia; try congruence.
        -- intros call [<- | []]. reflexivity.
        -- intros message [H | H]; discriminate.
        -- intros (source' & H' & Hnone). injection H' as <-. congruence.
      * repeat split; try lia; try congruence.
        -- intros call [<- | []]. reflexivity.
        -- intros message [H | H]; discriminate.
        -- intros _. now exists source.
  - unfold selectContents in E. destruct syntax as [[|]|]; try discriminate.
    destruct (negb (JsString.truthy (nth_error (split variantSeparator contents) 1)));
      [|discriminate].
    injection E as <-. simpl.
    repeat split; try lia; try contradiction; try discriminate.
    intros (source & H' & _). discriminate.
Qed.

Lemma compiler_called_at_most_once_witness :
  fst (render echo example1 false None) = [].
Proof.
  exact (proj1 (proj2 (proj2
           (compiler_called_at_most_once echo example1 false None)))
           eq_refl).
Defined.

Lemma split_first_block (sep s : string) :
  exists first rest, split sep s = first :: rest.
Proof.
  destruct (split_from_first sep s 0 "") as (first & rest & H).
  now exists first, rest.
Qed.

Lemma examplesOf_present (text : string) : examplesOf (Some text) <> [].
Proof.
  simpl. destruct (split_first_block sectionSeparator text)
    as (first & rest & ->).
  discriminate.
Qed.

(** With a single syntax and without generated CSS a render always
    returns, without a call of the compiler: the first block gives the
    sections of the selected syntax, of which there is at least one, the
    second block (if any) gives the CSS sections, and the syntax that is
    not selected has no section. *)
Theorem single_syntax_render_returns (compileString : Compiler)
  (contents : string) (selected : Syntax) :
  let blocks := split variantSeparator contents in
  exists code,
    render compileString contents false (Some selected) = ([], Returns code)
    /\ selectedSections selected code = examplesOf (nth_error blocks 0)
    /\ selectedSections selected code <> []
    /\ Code.css code = examplesOf (nth_error blocks 1)
    /\ match selected with
       | scss_only => Code.sass code = []
       | sass_only => Code.scss code = []
       end.
Proof.
  cbn zeta. rewrite render_unfold. unfold selectContents.
  destruct (split_first_block variantSeparator contents)
    as (first & rest & Hsplit).
  destruct selected; unfold ret, resolveCss; rewrite andb_false_r;
    unfold ret; cbn zeta; eexists; (split; [reflexivity|]); simpl;
    rewrite Hsplit; simpl; repeat split;
    apply (examplesOf_present first).
Qed.

Lemma render_source_sections (compileString : Compiler)
  (contents : string) (autogenCSS : bool) (syntax : option Syntax)
  (calls : list Call) (code : Code.t) :
  render compileString contents autogenCSS syntax = (calls, Returns code) ->
  match syntax with
  | Some scss_only => Code.scss code <> [] /\ Code.sass code = []
  | Some sass_only => Code.sass code <> [] /\ Code.scss code = []
  | None => Code.scss code <> [] /\ Code.sass code <> []
  end.
Proof.
  rewrite render_unfold. unfold selectContents.
  destruct (split_first_block variantSeparator contents)
    as (first & rest & Hsplit).
  rewrite Hsplit.
  destruct syntax as [[|]|]; unfold ret; simpl nth_error.
  - destruct (resolveCss _ _ _ _ _ _ _ _) as [calls' [css|e]];
      [|discriminate].
    intros H. injection H as _ <-. simpl Code.scss. simpl Code.sass.
    split; [apply (examplesOf_present first) | reflexivity].
  - destruct (resolveCss _ _ _ _ _ _ _ _) as [calls' [css|e]];
      [|discriminate].
    intros H. injection H as _ <-. simpl Code.scss. simpl Code.sass.
    split; [apply (examplesOf_present first) | reflexivity].
  - destruct rest as [|second rest'].
    + simpl. intros H. discriminate H.
    + cbn [nth_error].
      destruct (negb (JsString.truthy (Some second)));
        [unfold throw; intros H; discriminate H|].
      unfold ret.
      destruct (resolveCss _ _ _ _ _ _ _ _) as [calls' [css|e]];
        [|discriminate].
      intros H. injection H as _ <-. simpl Code.scss. simpl Code.sass.
      split; [apply (examplesOf_present first)
             | apply (examplesOf_present second)].
Qed.

(** In the result of a render the selected syntax has at least one section
    and the other one has none; with both syntaxes, both have at least one
    section. *)
Theorem source_sections_present (compileString : Compiler)
  (contents : string) (autogenCSS : bool) (syntax : option Syntax)
  (calls : list Call) (code : Code.t) :
  render compileString contents autogenCSS syntax = (calls, Returns code) ->
  match syntax with
  | Some scss_only => Code.scss code <> [] /\ Code.sass code = []
  | Some sass_only => Code.sass code <> [] /\ Code.scss code = []
  | None => Code.scss code <> [] /\ Code.sass code <> []
  end.
Proof. apply render_source_sections. Qed.

Lemma source_sections_present_witness :
  Code.scss example1Code <> [] /\ Code.sass example1Code <> [].
Proof.
  exact (source_sections_present echo example1 false None [] example1Code
           eq_refl).
Defined.

(** ** An empty first block *)

(** When the CSS is to be generated from an empty first block: with SCSS
    selected the render throws the error of a CSS that cannot be generated
    (the empty block is falsy, and the sections are taken from the Sass
    block, which has none); with Sass selected the compiler is called once,
    on the empty text. *)
Theorem empty_block_auto_generate (compileString : Compiler)
  (contents : string) :
  nth_error (split variantSeparator contents) 0 = Some ""%string ->
  JsString.truthy (nth_error (split variantSeparator contents) 1) = false ->
  render compileString contents true (Some scss_only)
  = ([], Throws (CannotAutoGenerateError cantAutoGenerate))
  /\ fst (render compileString contents true (Some sass_only))
     = [(""%string, indented)].
Proof.
  intros Hfirst Hsecond. rewrite !render_unfold. unfold selectContents, ret.
  rewrite Hfirst. unfold resolveCss. rewrite Hsecond. simpl.
  split; [reflexivity|].
  unfold bind, compile, ret. change (trim "") with ""%string.
  destruct (compileString "" indented); reflexivity.
Qed.

Lemma empty_block_auto_generate_witness :
  render echo "" true (Some scss_only)
  = ([], Throws (CannotAutoGenerateError cantAutoGenerate))
  /\ fst (render echo "" true (Some sass_only)) = [(""%string, indented)].
Proof. exact (empty_block_auto_generate echo "" eq_refl eq_refl). Defined.

(** With both syntaxes, an empty SCSS block and one Sass section, the CSS
    to be generated is compiled from the Sass section, which is declared to
    the compiler as SCSS. *)
Theorem empty_scss_block_compiles_sass (compileString : Compiler)
  (contents sassContents source : string) :
  nth_error (split variantSeparator contents) 0 = Some ""%string ->
  nth_error (split variantSeparator contents) 1 = Some sassContents ->
  JsString.truthy (Some sassContents) = true ->
  examplesOf (Some sassContents) = [source] ->
  JsString.truthy (nth_error (split variantSeparator contents) 2) = false ->
  fst (render compileString contents true None) = [(source, scss_syntax)].
Proof.
  intros Hfirst Hsecond Htruthy Hsource Hthird.
  rewrite render_unfold. unfold selectContents, ret.
  rewrite Hfirst, Hsecond, Htruthy. cbn [negb]. unfold resolveCss.
  rewrite Hthird. cbn [negb andb].
  unfold autogenSections. cbn [JsString.truthy]. rewrite Hsource.
  unfold bind, compile, ret. simpl.
  destruct (compileString source scss_syntax); reflexivity.
Qed.

Lemma empty_scss_block_compiles_sass_witness :
  fst (render echo sassAlone true None)
  = [((".a" ++ LF ++ "  color: red")%string, scss_syntax)].
Proof.
  exact (empty_scss_block_compiles_sass echo sassAlone
           (".a" ++ LF ++ "  color: red")%string
           (".a" ++ LF ++ "  color: red")%string
           eq_refl eq_refl eq_refl eq_refl eq_refl).
Defined.

(** ** The split of a render *)

Lemma source_sections_nonempty (compileString : Compiler)
  (contents : string) (autogenCSS : bool) (syntax : option Syntax)
  (calls : list Call) (code : Code.t) :
  render compileString contents autogenCSS syntax = (calls, Returns code) ->
  Code.scss code ++ Code.sass code <> [].
Proof.
  intros H. pose proof (render_source_sections _ _ _ _ _ _ H) as Hs.
  destruct syntax as [[|]|]; destruct Hs as [H1 H2];
    destruct (Code.scss code), (Code.sass code); simpl; congruence.
Qed.

(** In the result of a render with at least one CSS section, the example
    can be split exactly when the longest CSS line is not empty and its
    length plus the length of the longest source line is less than 110.
    The location of the split is [null] exactly when the example cannot be
    split, and it is 50 when it can and both lengths are less than 55. *)
Theorem render_split_with_css (compileString : Compiler)
  (contents : string) (autogenCSS : bool) (syntax : option Syntax)
  (calls : list Call) (code : Code.t) :
  render compileString contents autogenCSS syntax = (calls, Returns code) ->
  Code.css code <> [] ->
  let sourceWidth := maxWidth (Code.scss code ++ Code.sass code) in
  let cssWidth := maxWidth (Code.css code) in
  (Code.canSplit code = true
   <-> cssWidth <> 0%nat /\ (sourceWidth + cssWidth < 110)%nat)
  /\ (Code.splitLocation code = None <-> Code.canSplit code = false)
  /\ (Code.canSplit code = true ->
      (sourceWidth < 55)%nat -> (cssWidth < 55)%nat ->
      same_opt (Code.splitLocation code) (Some (of_Z 50))).
Proof.
  intros Hrender Hcss sourceWidth cssWidth.
  pose proof (source_sections_nonempty _ _ _ _ _ _ Hrender) as Hsource.
  destruct (render_returns _ _ _ _ _ _ Hrender) as (_ & -> & ->).
  destruct (canSplit_with_css (Code.scss code) (Code.sass code)
              (Code.css code) Hsource Hcss) as (Hs & Hc & Hiff).
  split; [exact Hiff|]. split.
  - unfold getSplitLocation.
    destruct (canSplit (getCanSplit (Code.scss code) (Code.sass code)
                          (Code.css code))).
    + destruct (_ && _); split; discriminate.
    + split; reflexivity.
  - intros Hsplit Hnarrow Hcssnarrow.
    pose proof (getSplitLocation_of_widths _ _ _ Hsplit Hs Hc) as H.
    fold sourceWidth cssWidth in H.
    apply Nat.ltb_lt in Hnarrow, Hcssnarrow.
    rewrite Hnarrow, Hcssnarrow in H. exact H.
Qed.

Lemma render_split_with_css_witness :
  exists code,
    render echo narrowAndWide false (Some scss_only) = ([], Returns code)
    /\ (Code.canSplit code = true
        <-> maxWidth (Code.css code) <> 0%nat
            /\ (maxWidth (Code.scss code ++ Code.sass code)
                + maxWidth (Code.css code) < 110)%nat).
Proof.
  eexists. split; [vm_compute; reflexivity|].
  refine (proj1 (render_split_with_css echo narrowAndWide false
                   (Some scss_only) [] _ _ _)).
  - vm_compute. reflexivity.
  - discriminate.
Defined.

(** In the result of a render without CSS section, the example is reported
    as one that can be split: at 50 when the longest source line is shorter
    than 55, and at [Infinity] otherwise. *)
Theorem render_split_without_css (compileString : Compiler)
  (contents : string) (autogenCSS : bool) (syntax : option Syntax)
  (calls : list Call) (code : Code.t) :
  render compileString contents autogenCSS syntax = (calls, Returns code) ->
  Code.css code = [] ->
  Code.canSplit code = true
  /\ same_opt (Code.splitLocation code)
       (Some (if (maxWidth (Code.scss code ++ Code.sass code) <? 55)%nat
              then of_Z 50 else Infinity)).
Proof.
  intros Hrender Hcss.
  pose proof (source_sections_nonempty _ _ _ _ _ _ Hrender) as Hsource.
  destruct (render_returns _ _ _ _ _ _ Hrender) as (_ & -> & ->).
  rewrite Hcss.
  destruct (canSplit_without_css (Code.scss code) (Code.sass code))
    as [Hc Hsplit].
  split; [exact Hsplit|].
  unfold getSplitLocation. rewrite Hsplit, Hc.
  unfold getCanSplit. cbn [maxSourceWidth]. rewrite Math_max_widths.
  destruct (Code.scss code ++ Code.sass code) as [|source sources] eqn:E;
    [now elim Hsource|].
  unfold of_nat. rewrite ltb_of_Z.
  replace (Z.of_nat (maxWidth (source :: sources)) <? 55)%Z
    with (maxWidth (source :: sources) <? 55)%nat
    by (destruct (Nat.ltb_spec (maxWidth (source :: sources)) 55),
          (Z.ltb_spec (Z.of_nat (maxWidth (source :: sources))) 55); lia).
  destruct (maxWidth (source :: sources) <? 55)%nat; vm_compute; reflexivity.
Qed.

Lemma render_split_without_css_witness :
  Code.canSplit example1Code = true
  /\ same_opt (Code.splitLocation example1Code) (Some (of_Z 50)).
Proof.
  exact (render_split_without_css echo example1 false None [] example1Code
           eq_refl eq_refl).
Defined.

Lemma widths_app (sections1 sections2 : list string) :
  widths (sections1 ++ sections2) = widths sections1 ++ widths sections2.
Proof. unfold widths. apply flat_map_app. Qed.

Lemma maxWidth_app (sections1 sections2 : list string) :
  maxWidth (sections1 ++ sections2)
  = Nat.max (maxWidth sections1) (maxWidth sections2).
Proof. unfold maxWidth. now rewrite widths_app, list_max_app. Qed.

(** More source never makes room: when an example with CSS sections can be
    split, it can still be split after source sections are removed. *)
Theorem canSplit_fewer_sources (scss sass css moreScss moreSass : list string) :
  scss ++ sass <> [] ->
  css <> [] ->
  canSplit (getCanSplit (scss ++ moreScss) (sass ++ moreSass) css) = true ->
  canSplit (getCanSplit scss sass css) = true.
Proof.
  intros Hsource Hcss Hsplit.
  assert (Hmore : (scss ++ moreScss) ++ sass ++ moreSass <> []).
  { intros H. apply app_eq_nil in H as [H1 H2].
    apply app_eq_nil in H1 as [-> _]. apply app_eq_nil in H2 as [-> _].
    now apply Hsource. }
  apply (canSplit_with_css _ _ _ Hmore Hcss) in Hsplit as [Hnz Hlt].
  apply (canSplit_with_css _ _ _ Hsource Hcss). split; [exact Hnz|].
  rewrite !maxWidth_app in Hlt. rewrite maxWidth_app. lia.
Qed.

Lemma canSplit_fewer_sources_witness :
  canSplit (getCanSplit ["a"] [] ["b"]) = true.
Proof.
  apply (canSplit_fewer_sources ["a"] [] ["b"] ["cc"] ["ddd"]).
  - discriminate.
  - discriminate.
  - reflexivity.
Defined.

(** ** Sections are trimmed pieces *)

Lemma trim_start_spec (s : string) :
  exists l, s = (l ++ trim_start s)%string /\ allWhiteSpace l = true
            /\ startsWithWhiteSpace (trim_start s) = false.
Proof.
  induction s as [|c s (l & Hs & Hl & Hfirst)]; simpl.
  - now exists ""%string.
  - destruct (is_white_space c) eqn:E.
    + exists (String c l). simpl. rewrite E, Hl, <- Hs. simpl. auto.
    + exists ""%string. simpl. simpl. auto.
Qed.

Lemma trim_end_spec (s : string) :
  exists r, s = (trim_end s ++ r)%string /\ allWhiteSpace r = true
            /\ endsWithWhiteSpace (trim_end s) = false.
Proof.
  induction s as [|c s (r & Hs & Hr & Hlast)]; simpl.
  - now exists ""%string.
  - destruct (trim_end s) as [|d t] eqn:E.
    + destruct (is_white_space c) eqn:Ec.
      * exists (String c r). simpl in *. rewrite Ec, Hr, <- Hs. simpl. auto.
      * exists r. simpl in *. rewrite Ec. subst r. auto.
    + exists r. simpl in *. rewrite <- Hs. auto.
Qed.

Lemma trim_end_first (c : ascii) (s : string) :
  is_white_space c = false ->
  exists t, trim_end (String c s) = String c t.
Proof.
  intros Hc. simpl. destruct (trim_end s) as [|d t]; rewrite ?Hc; eauto.
Qed.

Lemma trim_end_idempotent (s : string) : trim_end (trim_end s) = trim_end s.
Proof.
  induction s as [|c s IH]; simpl; [reflexivity|].
  destruct (trim_end s) as [|d t] eqn:E.
  - destruct (is_white_space c) eqn:Ec; simpl; [reflexivity|].
    now rewrite Ec.
  - cbn [trim_end] in *. now rewrite IH.
Qed.

(** [trim] removes white space at both ends and nothing else, and it
    changes nothing in a text it has returned. *)
Lemma trim_spec (s : string) :
  (exists l r, s = (l ++ trim s ++ r)%string
               /\ allWhiteSpace l = true /\ allWhiteSpace r = true)
  /\ startsWithWhiteSpace (trim s) = false
  /\ endsWithWhiteSpace (trim s) = false
  /\ trim (trim s) = trim s.
Proof.
  unfold trim.
  destruct (trim_start_spec s) as (l & Hs & Hl & Hfirst).
  destruct (trim_end_spec (trim_start s)) as (r & Ht & Hr & Hlast).
  assert (Hkeep : startsWithWhiteSpace (trim_end (trim_start s)) = false
                  /\ trim_start (trim_end (trim_start s))
                     = trim_end (trim_start s)).
  { destruct (trim_start s) as [|c u]; [split; reflexivity|].
    simpl in Hfirst. destruct (trim_end_first c u Hfirst) as (t & ->).
    simpl. rewrite Hfirst. split; reflexivity. }
  destruct Hkeep as [Hstart Hfix].
  split; [|split; [|split]].
  - exists l, r. rewrite <- Ht. auto.
  - exact Hstart.
  - exact Hlast.
  - rewrite Hfix. apply trim_end_idempotent.
Qed.

Lemma render_sections (compileString : Compiler) (contents : string)
  (autogenCSS : bool) (syntax : option Syntax) (calls : list Call)
  (code : Code.t) :
  render compileString contents autogenCSS syntax = (calls, Returns code) ->
  forall v, exists block, codeSections v code = examplesOf block.
Proof.
  rewrite render_unfold.
  destruct (selectContents contents syntax []) as [calls1 [[[a b] c]|e]];
    [|discriminate].
  destruct (resolveCss _ _ _ _ _ _ _ _) as [calls' [css|e]]; [|discriminate].
  intros H. injection H as _ <-.
  intros []; unfold codeSections; simpl; eauto.
Qed.

(** Every section of the result of a render is trimmed: it neither starts
    nor ends with white space, and [trim] leaves it as it is. *)
Theorem sections_are_trimmed (compileString : Compiler) (contents : string)
  (autogenCSS : bool) (syntax : option Syntax) (calls : list Call)
  (code : Code.t) (v : Variant) (section : string) :
  render compileString contents autogenCSS syntax = (calls, Returns code) ->
  In section (codeSections v code) ->
  startsWithWhiteSpace section = false
  /\ endsWithWhiteSpace section = false
  /\ trim section = section.
Proof.
  intros Hrender Hin.
  destruct (render_sections _ _ _ _ _ _ Hrender v) as (block & Hblock).
  rewrite Hblock in Hin. destruct block as [text|]; [|contradiction].
  simpl in Hin. apply in_map_iff in Hin as (piece & <- & _).
  destruct (trim_spec piece) as (_ & H1 & H2 & H3). auto.
Qed.

Lemma sections_are_trimmed_witness :
  startsWithWhiteSpace ".foo{color:blue}" = false
  /\ endsWithWhiteSpace ".foo{color:blue}" = false
  /\ trim ".foo{color:blue}" = ".foo{color:blue}"%string.
Proof.
  exact (sections_are_trimmed echo example1 false None [] example1Code
           scssVariant ".foo{color:blue}" eq_refl (or_introl eq_refl)).
Defined.

(** ** Blocks and sections against the input *)

Lemma starts_with_app (sep cur s : string) :
  starts_with sep cur = true -> starts_with sep (cur ++ s) = true.
Proof.
  rewrite !starts_with_spec. intros [rest ->].
  exists (rest ++ s)%string. now rewrite append_assoc.
Qed.

Lemma noMatchIn_free (sep cur s : string) :
  sep <> ""%string -> noMatchIn sep cur s = true -> contains sep cur = false.
Proof.
  intros Hsep. induction cur as [|c cur IH]; simpl.
  - destruct sep; [now elim Hsep | reflexivity].
  - rewrite andb_true_iff, negb_true_iff. intros [Hhere Hrest].
    rewrite (IH Hrest), orb_false_r.
    destruct (starts_with sep (String c cur)) eqn:E; [|reflexivity].
    apply (starts_with_app _ _ s) in E. simpl in E. congruence.
Qed.

Lemma noMatchIn_extend (sep cur : string) (c : ascii) (s : string) :
  noMatchIn sep cur (String c s) = true ->
  starts_with sep (String c s) = false ->
  noMatchIn sep (cur ++ String c "") s = true.
Proof.
  intros Hcur Hhere. induction cur as [|d cur IH]; simpl in *.
  - now rewrite Hhere.
  - apply andb_true_iff in Hcur as [Hd Hrest].
    rewrite append_assoc. simpl. rewrite Hd. now apply IH.
Qed.

Lemma split_from_free (sep : string) (s : string) :
  sep <> ""%string ->
  forall skip cur,
    (skip = 0%nat /\ noMatchIn sep cur s = true) \/ cur = ""%string ->
    Forall (fun piece => contains sep piece = false)
      (split_from sep skip cur s).
Proof.
  intros Hsep. induction s as [|c s IH]; intros skip cur Hinv.
  - simpl. constructor; [|constructor].
    destruct Hinv as [[_ H] | ->].
    + exact (noMatchIn_free sep cur "" Hsep H).
    + destruct sep; [now elim Hsep | reflexivity].
  - cbn [split_from]. destruct skip as [|k].
    + assert (Hcur : noMatchIn sep cur (String c s) = true)
        by (destruct Hinv as [[_ H] | ->]; [exact H | reflexivity]).
      destruct (starts_with sep (String c s)) eqn:E.
      * constructor.
        -- exact (noMatchIn_free sep cur _ Hsep Hcur).
        -- apply IH. now right.
      * apply IH. left. split; [reflexivity|].
        now apply noMatchIn_extend.
    + destruct Hinv as [[H _] | ->]; [discriminate|].
      apply IH. now right.
Qed.

Lemma occursIn_inside (sep l t r : string) :
  occursIn sep t -> occursIn sep (l ++ t ++ r).
Proof.
  intros (before & after & ->).
  exists (l ++ before)%string, (after ++ r)%string.
  now rewrite !append_assoc.
Qed.

(** The blocks of an input, joined by the [===] separator, are the input,
    and the pieces of a block, joined by the [---] separator, are the
    block: splitting drops nothing but the separators.  No block holds a
    [===] separator and no piece a [---] separator. *)
Theorem blocks_and_pieces (contents : string) :
  String.concat variantSeparator (split variantSeparator contents) = contents
  /\ Forall (fun block => ~ occursIn variantSeparator block)
       (split variantSeparator contents)
  /\ Forall (fun block =>
               String.concat sectionSeparator (split sectionSeparator block)
               = block
               /\ Forall (fun piece => ~ occursIn sectionSeparator piece)
                    (split sectionSeparator block))
       (split variantSeparator contents).
Proof.
  assert (Hfree : forall sep s,
             sep <> ""%string ->
             Forall (fun piece => ~ occursIn sep piece) (split sep s)).
  { intros sep s Hsep.
    pose proof (split_from_free sep s Hsep 0 "" (or_intror eq_refl)) as H.
    apply Forall_forall. intros piece Hin.
    rewrite Forall_forall in H. apply not_contains_spec. now apply H. }
  split; [|split].
  - apply split_join. discriminate.
  - apply Hfree. discriminate.
  - apply Forall_forall. intros block _. split.
    + apply split_join. discriminate.
    + apply Hfree. discriminate.
Qed.

(** No section of the result of a render holds a [---] separator. *)
Theorem sections_hold_no_separator (compileString : Compiler)
  (contents : string) (autogenCSS : bool) (syntax : option Syntax)
  (calls : list Call) (code : Code.t) (v : Variant) (section : string) :
  render compileString contents autogenCSS syntax = (calls, Returns code) ->
  In section (codeSections v code) ->
  ~ occursIn sectionSeparator section.
Proof.
  intros Hrender Hin.
  destruct (render_sections _ _ _ _ _ _ Hrender v) as (block & Hblock).
  rewrite Hblock in Hin. destruct block as [text|]; [|contradiction].
  simpl in Hin. apply in_map_iff in Hin as (piece & <- & Hpiece).
  pose proof (split_from_free sectionSeparator text ltac:(discriminate) 0 ""
                (or_intror eq_refl)) as Hfree.
  rewrite Forall_forall in Hfree. specialize (Hfree piece Hpiece).
  apply not_contains_spec in Hfree.
  intros Hocc. apply Hfree.
  destruct (trim_spec piece) as ((l & r & Heq & _) & _).
  rewrite Heq. now apply occursIn_inside.
Qed.

Lemma sections_hold_no_separator_witness :
  ~ occursIn sectionSeparator ".foo{color:blue}".
Proof.
  exact (sections_hold_no_separator echo example1 false None [] example1Code
           scssVariant ".foo{color:blue}" eq_refl (or_introl eq_refl)).
Defined.

(** ** The entry point *)

(** [codeExample] renders the template at most once, after at most one
    call of the compiler, and exactly when [generateCodeExample] has
    returned: the engine then gets the template of code examples, the
    result and the name of the example, and the promise is settled as the
    engine settles.  When [generateCodeExample] throws, the promise is
    rejected with its exception and the engine is not called.  Called with
    the contents and the name only, on contents without [===] separator, it
    rejects with the error of a malformed input and calls neither the
    compiler nor the engine. *)
Theorem codeExample_settles (compileString : Compiler) (renderFile : Engine)
  (contents exampleName : string) (autogenCSS : option bool)
  (syntax : option Syntax) :
  let flag := match autogenCSS with Some flag => flag | None => true end in
  let run := render compileString contents flag syntax in
  let done := codeExample compileString renderFile contents exampleName
                autogenCSS syntax in
  compilerCalls done = fst run
  /\ (List.length (compilerCalls done) <= 1)%nat
  /\ (forall code,
        snd run = Returns code ->
        engineCalls done = [(templateFile, code, exampleName)]
        /\ settled done
           = match renderFile templateFile code exampleName with
             | Some html => Fulfilled html
             | None => EngineRejected
             end)
  /\ (forall e,
        snd run = Throws e ->
        engineCalls done = [] /\ settled done = Rejected e)
  /\ (~ occursIn variantSeparator contents ->
      codeExample compileString renderFile contents exampleName None None
      = {| compilerCalls := [];
           engineCalls := [];
           settled := Rejected (MalformedInputError (couldntFind contents)) |}).
Proof.
  cbn zeta.
  pose proof (render_calls_length compileString contents
                match autogenCSS with Some flag => flag | None => true end
                syntax) as Hcalls.
  unfold codeExample, render in *.
  destruct (generateCodeExample compileString contents
              match autogenCSS with Some flag => flag | None => true end
              syntax []) as [calls [code|e]]; simpl in *.
  - split; [reflexivity|]. split; [exact Hcalls|].
    split; [intros code' H; injection H as <-; split; reflexivity|].
    split; [intros e H; discriminate H|].
    intros Habsent. unfold generateCodeExample, bind, selectContents.
    rewrite (split_absent _ _ Habsent). reflexivity.
  - split; [reflexivity|]. split; [exact Hcalls|].
    split; [intros code' H; discriminate H|].
    split; [intros e' H; injection H as <-; split; reflexivity|].
    intros Habsent. unfold generateCodeExample, bind, selectContents.
    rewrite (split_absent _ _ Habsent). reflexivity.
Qed.

Lemma codeExample_settles_witness :
  codeExample echo nameOnly twoSections "id" None None
  = {| compilerCalls := [];
       engineCalls := [];
       settled := Rejected (MalformedInputError (couldntFind twoSections)) |}.
Proof.
  assert (Habsent : ~ occursIn variantSeparator twoSections).
  { apply not_contains_spec. reflexivity. }
  exact (proj2 (proj2 (proj2 (proj2
           (codeExample_settles echo nameOnly twoSections "id" None None))))
           Habsent).
Defined.

(** ** Generated CSS that is empty *)

Lemma allWhiteSpace_trim (s : string) :
  allWhiteSpace s = true -> trim s = ""%string.
Proof.
  unfold trim. induction s as [|c s IH]; simpl; [reflexivity|].
  rewrite andb_true_iff. intros [-> H]. now apply IH.
Qed.

Lemma allWhiteSpace_no_separator (s : string) :
  allWhiteSpace s = true -> contains sectionSeparator s = false.
Proof.
  induction s as [|c s IH]; [reflexivity|].
  cbn [allWhiteSpace contains]. rewrite andb_true_iff. intros [Hc Hs].
  rewrite (IH Hs), orb_false_r.
  unfold sectionSeparator, LF. cbn [append starts_with].
  destruct s as [|d s]; [now rewrite andb_false_r|].
  cbn [allWhiteSpace] in Hs. apply andb_true_iff in Hs as [Hd _].
  destruct (Ascii.eqb_spec "-" d) as [<- | Hneq].
  - discriminate Hd.
  - cbn [starts_with]. now rewrite andb_false_r.
Qed.

(** When the CSS is generated and the compiler returns nothing but white
    space, the result has one CSS section, the empty text, and the example
    cannot be split: its split location is [null]. *)
Theorem empty_generated_css (compileString : Compiler) (contents : string)
  (syntax : option Syntax)
  (scssContents sassContents cssContents : option string)
  (source generated : string) :
  selectContents contents syntax []
  = ([], Returns (scssContents, sassContents, cssContents)) ->
  JsString.truthy cssContents = false ->
  autogenSections scssContents (examplesOf scssContents)
    (examplesOf sassContents) = [source] ->
  compileString source (declaredSyntax syntax) = Some generated ->
  allWhiteSpace generated = true ->
  exists code,
    render compileString contents true syntax
    = ([(source, declaredSyntax syntax)], Returns code)
    /\ Code.css code = [""%string]
    /\ Code.canSplit code = false
    /\ Code.splitLocation code = None.
Proof.
  intros Hselect Hcss Hsource Hcompile Hwhite.
  rewrite render_unfold, Hselect.
  destruct (resolveCss_cases compileString true syntax scssContents
              cssContents (examplesOf scssContents) (examplesOf sassContents)
              [])
    as [[_ [H | H]] | [[_ (_ & _ & H)] | (source' & Hs & _ & _ & ->)]].
  - congruence.
  - discriminate.
  - rewrite Hsource in H. now elim H.
  - rewrite Hsource in Hs. injection Hs as <-. rewrite Hcompile.
    assert (Hexamples : examplesOf (Some generated) = [""%string]).
    { unfold examplesOf, split.
      rewrite (split_from_absent _ _ ""
                 (allWhiteSpace_no_separator _ Hwhite)).
      simpl. now rewrite (allWhiteSpace_trim _ Hwhite). }
    cbn zeta. rewrite Hexamples.
    eexists. split; [reflexivity|]. cbn [Code.css Code.canSplit
                                          Code.splitLocation].
    split; [reflexivity|].
    assert (Hno : canSplit (getCanSplit (examplesOf scssContents)
                              (examplesOf sassContents) [""%string]) = false)
      by reflexivity.
    split; [exact Hno|].
    unfold getSplitLocation. now rewrite Hno.
Qed.

Lemma empty_generated_css_witness :
  exists code,
    render silent ".a{}" true (Some scss_only)
    = ([(".a{}"%string, scss_syntax)], Returns code)
    /\ Code.css code = [""%string]
    /\ Code.canSplit code = false
    /\ Code.splitLocation code = None.
Proof.
  exact (empty_generated_css silent ".a{}" (Some scss_only)
           (Some ".a{}"%string) None None ".a{}" "" eq_refl eq_refl eq_refl
           eq_refl eq_refl).
Defined.
